(** * SpaceNet-8 inference script [tools/test_net.py]: a shallow embedding

    The script runs a segmentation network over batches coming from one
    dataloader per test-time-augmentation variant, masks nodata pixels,
    undoes the flips, center-crops to the original raster size, accumulates
    the weighted variants and writes one GeoTIFF per sample.

    Numbers.  Probabilities, image values and ensemble weights are modelled
    as exact rationals [Q] (the script computes them in binary floating
    point; rounding is not modelled).  Sizes and indices are [nat].

    Arrays.  A numpy array is a shape together with an indexing function:
    basic slicing and [::-1] produce views, which here are index
    transformations of the underlying function. *)

From Stdlib Require Import List Bool Arith ZArith QArith Qround String Ascii.
From Stdlib Require Import DecimalString Lia Lqa.
Import ListNotations.

Set Implicit Arguments.
Local Open Scope nat_scope.

(** ** Python exceptions and the two effects of the script *)

Inductive exn : Set :=
| AssertionError
| IndexError
| ValueError
| KeyError.

Inductive result (A : Type) : Type :=
| Ok (a : A)
| Raise (e : exn).
Arguments Ok {A} a.
Arguments Raise {A} e.

Definition rbind {A B} (m : result A) (k : A -> result B) : result B :=
  match m with
  | Ok a => k a
  | Raise e => Raise e
  end.

(** [assert b] of Python. *)
Definition py_assert (b : bool) : result unit :=
  if b then Ok tt else Raise AssertionError.

(** [l[i]] on a Python list or on the first axis of a tensor. *)
Definition getitem {A} (l : list A) (i : nat) : result A :=
  match nth_error l i with
  | Some a => Ok a
  | None => Raise IndexError
  end.

(** [d[key]] on a batch dictionary whose key may be absent. *)
Definition getkey {A} (o : option A) : result A :=
  match o with
  | Some a => Ok a
  | None => Raise KeyError
  end.

(** [l[i] = v] on a Python list. *)
Fixpoint setitem {A} (l : list A) (i : nat) (v : A) : result (list A) :=
  match l, i with
  | [], _ => Raise IndexError
  | _ :: t, O => Ok (v :: t)
  | a :: t, S j => rbind (setitem t j v) (fun t' => Ok (a :: t'))
  end.

(** ** numpy arrays *)

Module Np.

Record ndarray2 (A : Type) : Type := mk2 {
  rows : nat;
  cols : nat;
  at2 : nat -> nat -> A
}.

Record ndarray3 (A : Type) : Type := mk3 {
  dim0 : nat;
  dim1 : nat;
  dim2 : nat;
  at3 : nat -> nat -> nat -> A
}.

Definition shape2 {A} (m : ndarray2 A) : nat * nat := (rows m, cols m).
Definition shape3 {A} (p : ndarray3 A) : nat * nat * nat :=
  (dim0 p, dim1 p, dim2 p).

(** Two arrays agree: same shape, same entry at every index in range. *)
Definition same3 {A} (p q : ndarray3 A) : Prop :=
  shape3 p = shape3 q /\
  forall c y x, c < dim0 p -> y < dim1 p -> x < dim2 p ->
                at3 p c y x = at3 q c y x.

(** The entries as nested lists, channel by channel, row by row. *)
Definition to_list2 {A} (m : ndarray2 A) : list (list A) :=
  map (fun y => map (fun x => at2 m y x) (seq 0 (cols m))) (seq 0 (rows m)).

Definition to_list3 {A} (p : ndarray3 A) : list (list (list A)) :=
  map (fun c => map (fun y => map (fun x => at3 p c y x) (seq 0 (dim2 p)))
                    (seq 0 (dim1 p)))
      (seq 0 (dim0 p)).

Definition of_list3 {A} (d : A) (c h w : nat) (l : list (list (list A)))
  : ndarray3 A :=
  mk3 c h w (fun k y x => nth x (nth y (nth k l []) []) d).

(** [np.zeros(shape=[c, h, w])] and [np.zeros(shape=[h, w], dtype=bool)]. *)
Definition zeros3 (c h w : nat) : ndarray3 Q := mk3 c h w (fun _ _ _ => 0%Q).
Definition zeros2_bool (h w : nat) : ndarray2 bool :=
  mk2 h w (fun _ _ => false).

(** A slice [start:stop] with non-negative bounds on an axis of length [n]:
    Python clamps both bounds to [n]. *)
Definition slice_start (start n : nat) : nat := Nat.min start n.
Definition slice_len (start stop n : nat) : nat :=
  Nat.min stop n - Nat.min start n.

(** [p[:, top:bottom, left:right]] *)
Definition slice12 {A} (p : ndarray3 A) (top bottom left right : nat)
  : ndarray3 A :=
  mk3 (dim0 p)
      (slice_len top bottom (dim1 p))
      (slice_len left right (dim2 p))
      (fun c y x => at3 p c (slice_start top (dim1 p) + y)
                            (slice_start left (dim2 p) + x)).

(** [p[:, ::-1, :]] and [p[:, :, ::-1]] *)
Definition flip1 {A} (p : ndarray3 A) : ndarray3 A :=
  mk3 (dim0 p) (dim1 p) (dim2 p) (fun c y x => at3 p c (dim1 p - 1 - y) x).
Definition flip2 {A} (p : ndarray3 A) : ndarray3 A :=
  mk3 (dim0 p) (dim1 p) (dim2 p) (fun c y x => at3 p c y (dim2 p - 1 - x)).

(** [np.sum(image, axis=0) == 0] *)
Definition sum_axis0 (image : ndarray3 Q) (y x : nat) : Q :=
  fold_right (fun c acc => (at3 image c y x + acc)%Q) 0%Q (seq 0 (dim0 image)).

Definition sum_axis0_eq0 (image : ndarray3 Q) : ndarray2 bool :=
  mk2 (dim1 image) (dim2 image) (fun y x => Qeq_bool (sum_axis0 image y x) 0%Q).

(** Broadcasting of one axis of two operands. *)
Definition broadcast_dim (a b : nat) : option nat :=
  if a =? b then Some a
  else if a =? 1 then Some b
  else if b =? 1 then Some a
  else None.

(** The index an operand of axis length [d] is read at. *)
Definition bidx (d i : nat) : nat := if d =? 1 then 0 else i.

(** [a & b] on boolean 2-D arrays. *)
Definition band (a b : ndarray2 bool) : result (ndarray2 bool) :=
  match broadcast_dim (rows a) (rows b), broadcast_dim (cols a) (cols b) with
  | Some h, Some w =>
      Ok (mk2 h w (fun y x => at2 a (bidx (rows a) y) (bidx (cols a) x)
                              && at2 b (bidx (rows b) y) (bidx (cols b) x)))
  | _, _ => Raise ValueError
  end.

(** [pred[:, mask] = 0.0]: the boolean index must have the shape of the
    two axes it indexes. *)
Definition setitem_mask_all (pred : ndarray3 Q) (mask : ndarray2 bool)
  : result (ndarray3 Q) :=
  if (rows mask =? dim1 pred) && (cols mask =? dim2 pred) then
    Ok (mk3 (dim0 pred) (dim1 pred) (dim2 pred)
            (fun c y x => if at2 mask y x then 0%Q else at3 pred c y x))
  else Raise IndexError.

(** [pred[k, mask] = 0.0] *)
Definition setitem_mask_chan (pred : ndarray3 Q) (k : nat)
           (mask : ndarray2 bool) : result (ndarray3 Q) :=
  if (k <? dim0 pred) && (rows mask =? dim1 pred) && (cols mask =? dim2 pred)
  then
    Ok (mk3 (dim0 pred) (dim1 pred) (dim2 pred)
            (fun c y x => if (c =? k) && at2 mask y x then 0%Q
                          else at3 pred c y x))
  else Raise IndexError.

(** [pred * w] with a scalar [w]. *)
Definition scale (pred : ndarray3 Q) (w : Q) : ndarray3 Q :=
  mk3 (dim0 pred) (dim1 pred) (dim2 pred)
      (fun c y x => (at3 pred c y x * w)%Q).

(** [a += b]: [b] is broadcast to the shape of [a]; the result keeps the
    shape of [a], so every axis of [b] has the length of [a]'s or is 1. *)
Definition fits (da db : nat) : bool := (db =? da) || (db =? 1).

Definition iadd (a b : ndarray3 Q) : result (ndarray3 Q) :=
  if fits (dim0 a) (dim0 b) && fits (dim1 a) (dim1 b)
     && fits (dim2 a) (dim2 b)
  then
    Ok (mk3 (dim0 a) (dim1 a) (dim2 a)
            (fun c y x => (at3 a c y x
                           + at3 b (bidx (dim0 b) c) (bidx (dim1 b) y)
                                   (bidx (dim2 b) x))%Q))
  else Raise ValueError.

(** Every entry satisfies a test. *)
Definition all3 {A} (f : A -> bool) (p : ndarray3 A) : bool :=
  forallb (fun c =>
    forallb (fun y =>
      forallb (fun x => f (at3 p c y x)) (seq 0 (dim2 p)))
      (seq 0 (dim1 p)))
    (seq 0 (dim0 p)).

Definition size3 {A} (p : ndarray3 A) : nat := dim0 p * dim1 p * dim2 p.

(** [assert p.min() >= 0] and [assert p.max() <= 1]: the reduction of an
    empty array raises [ValueError]. *)
Definition assert_min_ge0 (p : ndarray3 Q) : result unit :=
  if size3 p =? 0 then Raise ValueError
  else py_assert (all3 (fun v => Qle_bool 0%Q v) p).

Definition assert_max_le1 (p : ndarray3 Q) : result unit :=
  if size3 p =? 0 then Raise ValueError
  else py_assert (all3 (fun v => Qle_bool v 1%Q) p).

(** [.astype(np.uint8)] of a float: the fraction is dropped (rounding
    toward zero) and the integer is reduced to 8 bits. *)
Definition Qtrunc (q : Q) : Z := Z.quot (Qnum q) (Zpos (Qden q)).
Definition astype_uint8 (q : Q) : Z := (Qtrunc q mod 256)%Z.

(** [(pred * 255).astype(np.uint8)] *)
Definition to_8bit (pred : ndarray3 Q) : ndarray3 Z :=
  mk3 (dim0 pred) (dim1 pred) (dim2 pred)
      (fun c y x => astype_uint8 (at3 pred c y x * 255)%Q).

End Np.
Import Np.

(** ** [crop_center] *)

Definition crop_center {A} (pred : ndarray3 A) (crop_wh : nat * nat)
  : result (ndarray3 A) :=
  let h := dim1 pred in
  let w := dim2 pred in
  let '(crop_w, crop_h) := crop_wh in
  rbind (py_assert (crop_w <=? w)) (fun _ =>
  rbind (py_assert (crop_h <=? h)) (fun _ =>
  let left := (w - crop_w) / 2 in
  let right := crop_w + left in
  let top := (h - crop_h) / 2 in
  let bottom := crop_h + top in
  Ok (slice12 pred top bottom left right))).

(** ** [os.path] on POSIX paths *)

Module OsPath.
Local Open Scope string_scope.

Definition is_sep (c : ascii) : bool := Ascii.eqb c "/"%char.

(** [p[:i]] and [p[i:]] for [i = p.rfind('/') + 1]: the part up to and
    including the last slash ([None] when there is no slash, where Python
    has the empty string) and the part after it. *)
Fixpoint rsplit (p : string) : option string * string :=
  match p with
  | EmptyString => (None, EmptyString)
  | String c r =>
      match rsplit r with
      | (Some h, t) => (Some (String c h), t)
      | (None, t) =>
          if is_sep c then (Some (String c EmptyString), t)
          else (None, String c t)
      end
  end.

Definition head_of (p : string) : string :=
  match fst (rsplit p) with
  | Some h => h
  | None => EmptyString
  end.

Definition basename (p : string) : string := snd (rsplit p).

Fixpoint all_sep (s : string) : bool :=
  match s with
  | EmptyString => true
  | String c r => is_sep c && all_sep r
  end.

(** [s.rstrip('/')] *)
Fixpoint rstrip_sep (s : string) : string :=
  match s with
  | EmptyString => EmptyString
  | String c r =>
      match rstrip_sep r with
      | EmptyString => if is_sep c then EmptyString else String c EmptyString
      | r' => String c r'
      end
  end.

Definition dirname (p : string) : string :=
  let head := head_of p in
  if negb (String.eqb head EmptyString) && negb (all_sep head)
  then rstrip_sep head
  else head.

Definition starts_with_sep (s : string) : bool :=
  match s with
  | String c _ => is_sep c
  | EmptyString => false
  end.

Fixpoint ends_with_sep (s : string) : bool :=
  match s with
  | EmptyString => false
  | String c EmptyString => is_sep c
  | String _ r => ends_with_sep r
  end.

(** [os.path.join(a, b)]; [os.path.join(a)] is [a]. *)
Definition join (a b : string) : string :=
  if starts_with_sep b then b
  else if String.eqb a EmptyString || ends_with_sep a then a ++ b
  else a ++ "/" ++ b.

End OsPath.

(** ** Configuration, command line and batches *)

(** The two configuration entries the loop reads.  [flatten_classes] is
    the list [get_flatten_classes(config)] returns (the function lives in
    [spacenet8_model.utils.misc]; the script only uses its result). *)
Record config : Type := {
  n_input_post_images : Z;
  flatten_classes : list string
}.

Record args : Type := {
  exp_id : nat;
  artifact_dir : string;
  val : bool;
  tta_hflip : bool;
  tta_vflip : bool
}.

(** A batch tensor [B, C, H, W] is the list of its [B] samples. *)
Definition tensor4 : Type := list (ndarray3 Q).

(** One batch of a dataloader: a dictionary, the two post-image keys
    optional. *)
Record batch : Type := {
  image : tensor4;
  pre_path : list string;
  original_height : list nat;
  original_width : list nat;
  image_post_a : option tensor4;
  image_post_b : option tensor4
}.

(** ** Effects: what the script does to its collaborators *)

Inductive event : Type :=
| Makedirs (path : string)
| DumpMeta (path : string)
| Forward (dataloader_idx : nat)
| SaveGeotiff (arr : ndarray3 Z) (ref_path : string)
              (out_path : option string).

(** A computation that emits events and returns or raises; the events
    emitted before an exception stay emitted. *)
Definition io (A : Type) : Type := list event * result A.

Definition io_ret {A} (a : A) : io A := ([], Ok a).

Definition io_bind {A B} (m : io A) (k : A -> io B) : io B :=
  match m with
  | (t, Ok a) => let '(t', r) := k a in (t ++ t', r)
  | (t, Raise e) => (t, Raise e)
  end.

Definition emit (e : event) : io unit := ([e], Ok tt).
Definition lift {A} (r : result A) : io A := ([], r).

Definition trace {A} (m : io A) : list event := fst m.
Definition outcome {A} (m : io A) : result A := snd m.

Declare Scope io_scope.
Delimit Scope io_scope with io.
Notation "x <- m ;; k" := (io_bind m (fun x => k))
  (at level 61, m at next level, right associativity) : io_scope.
Notation "m ;; k" := (io_bind m (fun _ => k))
  (at level 61, right associativity) : io_scope.

Declare Scope result_scope.
Delimit Scope result_scope with res.
Notation "x <- m ;; k" := (rbind m (fun x => k))
  (at level 61, m at next level, right associativity) : result_scope.
Notation "m ;; k" := (rbind m (fun _ => k))
  (at level 61, right associativity) : result_scope.

(** [for x in l: s = body(x, s)] *)
Fixpoint for_each {X S} (body : X -> S -> io S) (l : list X) (s : S) : io S :=
  match l with
  | [] => io_ret s
  | x :: r => io_bind (body x s) (for_each body r)
  end.

Definition enumerate {A} (l : list A) : list (nat * A) :=
  combine (seq 0 (List.length l)) l.

(** [zip] over the unpacked list [ls]: the tuples of the j-th elements, as many as the shortest
    list has. *)
Definition min_len {A} (ls : list (list A)) : nat :=
  match ls with
  | [] => 0
  | l :: r => fold_right (fun x m => Nat.min (List.length x) m) (List.length l) r
  end.

Definition column {A} (j : nat) (ls : list (list A)) : list A :=
  flat_map (fun l => match nth_error l j with
                     | Some a => [a]
                     | None => []
                     end) ls.

Definition zip_star {A} (ls : list (list A)) : list (list A) :=
  map (fun j => column j ls) (seq 0 (min_len ls)).

Fixpoint zip3 {A B C} (la : list A) (lb : list B) (lc : list C)
  : list (A * B * C) :=
  match la, lb, lc with
  | a :: ta, b :: tb, c :: tc => (a, b, c) :: zip3 ta tb tc
  | _, _, _ => []
  end.

(** ** The per-sample steps of [main] *)

(** Lines 204-207: [pred[:, sum(image) == 0] = 0.0]. *)
Definition mask_pre_nodata (pred image : ndarray3 Q) : result (ndarray3 Q) :=
  let nodata_mask := sum_axis0_eq0 image in
  setitem_mask_all pred nodata_mask.

(** Lines 210-216: the nodata mask of the post-event images. *)
Definition post_nodata_mask (i orig_h orig_w : nat)
           (images_post_a images_post_b : option tensor4)
  : result (ndarray2 bool) :=
  (nodata_mask <-
     match images_post_a with
     | Some t => (image <- getitem t i ;; Ok (sum_axis0_eq0 image))
     | None => Ok (zeros2_bool orig_h orig_w)
     end ;;
   match images_post_b with
   | Some t => (image <- getitem t i ;; band nodata_mask (sum_axis0_eq0 image))
   | None => Ok nodata_mask
   end)%res.

Definition flood_classes : list string :=
  ["flood_building"; "flood_road"; "flood"]%string.

Definition is_flood_class (class_name : string) : bool :=
  existsb (String.eqb class_name) flood_classes.

(** Lines 218-220: the loop over [enumerate(classes)], from index [k] on. *)
Fixpoint mask_flood_from (k : nat) (classes : list string)
         (nodata_mask : ndarray2 bool) (pred : ndarray3 Q)
  : result (ndarray3 Q) :=
  match classes with
  | [] => Ok pred
  | class_name :: rest =>
      (pred' <- (if is_flood_class class_name
                 then setitem_mask_chan pred k nodata_mask
                 else Ok pred) ;;
       mask_flood_from (S k) rest nodata_mask pred')%res
  end.

Definition mask_post_nodata (cfg : config) (i orig_h orig_w : nat)
           (images_post_a images_post_b : option tensor4) (pred : ndarray3 Q)
  : result (ndarray3 Q) :=
  (nodata_mask <- post_nodata_mask i orig_h orig_w images_post_a images_post_b ;;
   mask_flood_from 0 (flatten_classes cfg) nodata_mask pred)%res.

(** Lines 223-226. *)
Definition unflip (vflip hflip : bool) (pred : ndarray3 Q) : ndarray3 Q :=
  let pred := if vflip then flip1 pred else pred in
  if hflip then flip2 pred else pred.

(** Lines 204-228: one variant's probability map of one sample, masked,
    flipped back and cropped. *)
Definition rectify (cfg : config) (flags_hflip flags_vflip : list bool)
           (dataloader_idx i : nat) (images : tensor4)
           (images_post_a images_post_b : option tensor4)
           (orig_h orig_w : nat) (pred : ndarray3 Q) : result (ndarray3 Q) :=
  (image <- getitem images i ;;
   pred <- mask_pre_nodata pred image ;;
   pred <- mask_post_nodata cfg i orig_h orig_w images_post_a images_post_b pred ;;
   vflip <- getitem flags_vflip dataloader_idx ;;
   hflip <- getitem flags_hflip dataloader_idx ;;
   crop_center (unflip vflip hflip pred) (orig_w, orig_h))%res.

(** Lines 233-237. *)
Definition output_dir (out_root pre_path : string) : string :=
  let aoi := OsPath.basename (OsPath.dirname (OsPath.dirname pre_path)) in
  OsPath.join out_root aoi.

Definition output_path_of (out_root pre_path : string) : string :=
  let filename := OsPath.basename pre_path in
  OsPath.join (output_dir out_root pre_path) filename.

(** The fixed spatial size of the accumulation buffer (line 174). *)
Definition BUFFER_SIZE : nat := 1300.

(** The names the batch loop keeps between iterations. *)
Record buffers : Type := {
  output_paths : list (option string);
  preds_averaged : list (ndarray3 Q);
  batch_pre_paths : list string
}.

Definition option_string_eqb (a : option string) (b : string) : bool :=
  match a with
  | Some s => String.eqb s b
  | None => false
  end.

(** Line 231: [preds_averaged[i] += pred * weights[dataloader_idx]]. *)
Definition accumulate (weights : list Q) (dataloader_idx i : nat)
           (preds_averaged : list (ndarray3 Q)) (pred : ndarray3 Q)
  : result (list (ndarray3 Q)) :=
  (acc <- getitem preds_averaged i ;;
   w <- getitem weights dataloader_idx ;;
   acc' <- iadd acc (scale pred w) ;;
   setitem preds_averaged i acc')%res.

(** Lines 239-242. *)
Definition check_output_path (dataloader_idx i : nat)
           (output_paths : list (option string)) (output_path : string)
  : result (list (option string)) :=
  if dataloader_idx =? 0 then setitem output_paths i (Some output_path)
  else (stored <- getitem output_paths i ;;
        py_assert (option_string_eqb stored output_path) ;;
        Ok output_paths)%res.

(** The buffer line 172 allocates for a batch. *)
Definition fresh_buffer (cfg : config) (batch_size : nat)
  : list (ndarray3 Q) :=
  repeat (zeros3 (List.length (flatten_classes cfg)) BUFFER_SIZE BUFFER_SIZE)
         batch_size.

(** Lines 171-175: the buffers of a batch, before any variant. *)
Definition init_buffers (cfg : config) (batch_size : nat) : buffers :=
  {| output_paths := repeat None batch_size;
     preds_averaged := fresh_buffer cfg batch_size;
     batch_pre_paths := [] |}.

Section Pipeline.

(** The network ([model(images, images_post_a, images_post_b)], one logit
    map per sample) and the logistic function are collaborators. *)
Variable model : tensor4 -> option tensor4 -> option tensor4 -> tensor4.
Variable sigmoid : Q -> Q.
(** [get_test_dataloader(config, test_to_val, tta_hflip, tta_vflip)]:
    the batches the dataloader yields. *)
Variable get_test_dataloader : config -> bool -> bool -> bool -> list batch.

Variable cfg : config.
Variable out_root : string.
Variables flags_hflip flags_vflip : list bool.
Variable weights : list Q.

Definition map3 (f : Q -> Q) (p : ndarray3 Q) : ndarray3 Q :=
  mk3 (dim0 p) (dim1 p) (dim2 p) (fun c y x => f (at3 p c y x)).

(** Lines 199-242: the body of [for i in range(images.shape[0])]. *)
Definition process_sample (dataloader_idx : nat) (images : tensor4)
           (images_post_a images_post_b : option tensor4)
           (batch_preds : tensor4) (b : batch) (i : nat) (st : buffers)
  : io buffers :=
  (pred <- lift (getitem batch_preds i) ;;
   pre_path <- lift (getitem (pre_path b) i) ;;
   orig_h <- lift (getitem (original_height b) i) ;;
   orig_w <- lift (getitem (original_width b) i) ;;
   pred <- lift (rectify cfg flags_hflip flags_vflip dataloader_idx i images
                         images_post_a images_post_b orig_h orig_w pred) ;;
   averaged <- lift (accumulate weights dataloader_idx i
                                (preds_averaged st) pred) ;;
   emit (Makedirs (output_dir out_root pre_path)) ;;
   paths <- lift (check_output_path dataloader_idx i (output_paths st)
                                    (output_path_of out_root pre_path)) ;;
   io_ret {| output_paths := paths;
             preds_averaged := averaged;
             batch_pre_paths := batch_pre_paths st |})%io.

(** Lines 178-196: reading the batch and the forward pass. *)
Definition post_images (b : batch)
  : result (option tensor4 * option tensor4) :=
  let n := n_input_post_images cfg in
  (py_assert ((n =? 0)%Z || (n =? 1)%Z || (n =? 2)%Z) ;;
   if (n =? 1)%Z then
     (a <- getkey (image_post_a b) ;; Ok (Some a, None))
   else if (n =? 2)%Z then
     (a <- getkey (image_post_a b) ;;
      p <- getkey (image_post_b b) ;;
      Ok (Some a, Some p))
   else Ok (None, None))%res.

(** Lines 177-242: the body of [for dataloader_idx, batch in
    enumerate(batches)]. *)
Definition process_variant (ib : nat * batch) (st : buffers) : io buffers :=
  let '(dataloader_idx, b) := ib in
  let images := image b in
  let st := {| output_paths := output_paths st;
               preds_averaged := preds_averaged st;
               batch_pre_paths := pre_path b |} in
  (posts <- lift (post_images b) ;;
   let '(images_post_a, images_post_b) := posts in
   emit (Forward dataloader_idx) ;;
   let batch_preds :=
     map (map3 sigmoid) (model images images_post_a images_post_b) in
   for_each (process_sample dataloader_idx images images_post_a
                            images_post_b batch_preds b)
            (seq 0 (List.length images)) st)%io.

(** Lines 244-248: quantise and hand over to the raster writer. *)
Definition write_output (o : option string * ndarray3 Q * string) (u : unit)
  : io unit :=
  let '(output_path, pred, pre_path) := o in
  (lift (assert_min_ge0 pred) ;;
   lift (assert_max_le1 pred) ;;
   let pred_8bit := to_8bit pred in
   emit (SaveGeotiff pred_8bit pre_path output_path))%io.

(** Lines 170-248: the body of the loop over the zipped dataloaders. *)
Definition process_batch (batches : list batch) (u : unit) : io unit :=
  (b0 <- lift (getitem batches 0) ;;
   let batch_size := List.length (image b0) in
   let st := init_buffers cfg batch_size in
   st <- for_each process_variant (enumerate batches) st ;;
   for_each write_output
            (zip3 (output_paths st) (preds_averaged st) (batch_pre_paths st))
            tt)%io.

Definition batch_loop (test_dataloaders : list (list batch)) : io unit :=
  for_each process_batch (zip_star test_dataloaders) tt.

End Pipeline.

(** [prepare_test_dataloaders] *)
Definition normalize (weights : list Q) : list Q :=
  let total := fold_left Qplus weights 0%Q in
  map (fun w => (w / total)%Q) weights.

Definition prepare_test_dataloaders
           (get_test_dataloader : config -> bool -> bool -> bool -> list batch)
           (cfg : config) (a : args)
  : list (list batch) * list bool * list bool * list Q :=
  let test_to_val := val a in
  let test_dataloaders := [get_test_dataloader cfg test_to_val false false] in
  let weights := [1%Q] in
  let flags_hflip := [false] in
  let flags_vflip := [false] in
  let '(test_dataloaders, weights, flags_hflip, flags_vflip) :=
    if tta_hflip a then
      (test_dataloaders ++ [get_test_dataloader cfg test_to_val true false],
       weights ++ [1%Q], flags_hflip ++ [true], flags_vflip ++ [false])
    else (test_dataloaders, weights, flags_hflip, flags_vflip) in
  let '(test_dataloaders, weights, flags_hflip, flags_vflip) :=
    if tta_vflip a then
      (test_dataloaders ++ [get_test_dataloader cfg test_to_val false true],
       weights ++ [1%Q], flags_hflip ++ [false], flags_vflip ++ [true])
    else (test_dataloaders, weights, flags_hflip, flags_vflip) in
  (test_dataloaders, flags_hflip, flags_vflip, normalize weights).

(** [f'exp_{exp_id:05d}'] for a non-negative id. *)
Definition exp_dirname (exp_id : nat) : string :=
  let digits := NilZero.string_of_uint (Nat.to_uint exp_id) in
  ("exp_" ++ string_of_list_ascii
               (repeat "0"%char (5 - String.length digits)) ++ digits)%string.

(** Lines 149-150. *)
Definition out_root_of (a : args) : string :=
  let out_root := (if val a then "_val/preds" else "preds")%string in
  OsPath.join (OsPath.join (artifact_dir a) out_root) (exp_dirname (exp_id a)).

(** [main], from the output root on (the model is loaded before). *)
Definition main
           (model : tensor4 -> option tensor4 -> option tensor4 -> tensor4)
           (sigmoid : Q -> Q)
           (get_test_dataloader : config -> bool -> bool -> bool -> list batch)
           (cfg : config) (a : args) : io unit :=
  let out_root := out_root_of a in
  (emit (Makedirs out_root) ;;
   emit (DumpMeta (OsPath.join out_root "meta.json")) ;;
   let '(test_dataloaders, flags_hflip, flags_vflip, weights) :=
     prepare_test_dataloaders get_test_dataloader cfg a in
   batch_loop model sigmoid cfg out_root flags_hflip flags_vflip weights
              test_dataloaders)%io.

(** ** Sample data *)

Module Ex.

(** A rational stand-in for the logistic function, with values in
    [0, 1]. *)
Definition hard_sigmoid (x : Q) : Q :=
  if Qle_bool x (-1) then 0%Q
  else if Qle_bool 1 x then 1%Q
  else ((x + 1) / 2)%Q.

(** A network that answers with [n] channels of zero logits, of the
    spatial size of its input. *)
Definition flat_model (n : nat) (images : tensor4)
           (images_post_a images_post_b : option tensor4) : tensor4 :=
  map (fun image => mk3 n (dim1 image) (dim2 image) (fun _ _ _ => 0%Q))
      images.

Definition const3 (c h w : nat) (v : Q) : ndarray3 Q :=
  mk3 c h w (fun _ _ _ => v).

(** A 4 x 4 map with one channel whose pixels are numbered row by row. *)
Definition grid : ndarray3 nat := mk3 1 4 4 (fun _ y x => 4 * y + x).

(** 2 x 2 images that are black at (0, 0), resp. on the whole row 0. *)
Definition hole00 : ndarray3 Q :=
  mk3 3 2 2 (fun _ y x => if (y =? 0) && (x =? 0) then 0%Q else 1%Q).
Definition hole_row0 : ndarray3 Q :=
  mk3 3 2 2 (fun _ y x => if y =? 0 then 0%Q else 1%Q).

Definition tile_path : string := "/data/Germany/PRE-event/tile_7.tif".
Definition other_path : string := "/data/Germany/PRE-event/tile_8.tif".

Definition cfg_two_posts : config :=
  {| n_input_post_images := 2;
     flatten_classes := ["building"; "flood"]%string |}.

Definition cfg_no_post : config :=
  {| n_input_post_images := 0;
     flatten_classes := ["building"; "flood"]%string |}.

Definition cfg_foundation : config :=
  {| n_input_post_images := 0;
     flatten_classes := ["building"; "road"]%string |}.

Definition cfg_three_posts : config :=
  {| n_input_post_images := 3;
     flatten_classes := ["building"; "road"]%string |}.

Definition small_batch : batch :=
  {| image := [hole00];
     pre_path := [tile_path];
     original_height := [2];
     original_width := [2];
     image_post_a := Some [hole00];
     image_post_b := Some [hole_row0] |}.

(** One full-size tile per batch. *)
Definition tile_batch (path : string) : batch :=
  {| image := [const3 3 1300 1300 1];
     pre_path := [path];
     original_height := [1300];
     original_width := [1300];
     image_post_a := None;
     image_post_b := None |}.

Definition args_plain : args :=
  {| exp_id := 7; artifact_dir := "/wdata"; val := false;
     tta_hflip := false; tta_vflip := false |}.

Definition args_hflip : args :=
  {| exp_id := 7; artifact_dir := "/wdata"; val := false;
     tta_hflip := true; tta_vflip := false |}.

Definition one_tile (c : config) (test_to_val hflip vflip : bool)
  : list batch := [tile_batch tile_path].

Definition no_tile (c : config) (test_to_val hflip vflip : bool)
  : list batch := [].

End Ex.

(** ** Notions the statements use *)

(** The channel [c] carries a flood-type class, for the loop started at
    index [k] on [classes]. *)
Definition flood_at (k : nat) (classes : list string) (c : nat) : bool :=
  match nth_error classes (c - k) with
  | Some class_name => (k <=? c) && is_flood_class class_name
  | None => false
  end.

(** The sum of a list of weights. *)
Definition Qsum (l : list Q) : Q := fold_right Qplus 0%Q l.

(** Every entry of a map is a probability. *)
Definition in01 (p : ndarray3 Q) : Prop :=
  forall c y x, c < dim0 p -> y < dim1 p -> x < dim2 p ->
                (0 <= at3 p c y x <= 1)%Q.

(** The index along an axis of length [n] that a flip brings to [j]. *)
Definition src_index (flip : bool) (n j : nat) : nat :=
  if flip then n - 1 - j else j.

(** Line 231 as executed for sample [i] by the variants [dataloader_idx],
    [dataloader_idx + 1], ... on their rectified maps [maps]. *)
Fixpoint accumulate_from (weights : list Q) (dataloader_idx i : nat)
         (maps : list (ndarray3 Q)) (preds_averaged : list (ndarray3 Q))
  : result (list (ndarray3 Q)) :=
  match maps with
  | [] => Ok preds_averaged
  | pred :: rest =>
      rbind (accumulate weights dataloader_idx i preds_averaged pred)
            (accumulate_from weights (S dataloader_idx) i rest)
  end.

(** The raster-writer events. *)
Definition is_save (e : event) : Prop :=
  match e with
  | SaveGeotiff _ _ _ => True
  | _ => False
  end.

(** The path stored for sample [i] is the one derived from the pre-image
    path the batch [b] has for that sample. *)
Definition recorded (out_root : string) (b : batch)
           (paths : list (option string)) (i : nat) : Prop :=
  exists p, nth_error (pre_path b) i = Some p /\
            nth_error paths i = Some (Some (output_path_of out_root p)).

(** ** [dump_pred_to_png] *)

(** [p[:stop]] along the first axis. *)
Definition slice0 {A} (p : ndarray3 A) (stop : nat) : ndarray3 A :=
  mk3 (slice_len 0 stop (dim0 p)) (dim1 p) (dim2 p) (at3 p).

(** [p.transpose((1, 2, 0))] *)
Definition transpose120 {A} (p : ndarray3 A) : ndarray3 A :=
  mk3 (dim1 p) (dim2 p) (dim0 p) (fun y x k => at3 p k y x).

(** [np.zeros(shape=[h, w, k], dtype=np.uint8)] *)
Definition zeros3_uint8 (h w k : nat) : ndarray3 Z :=
  mk3 h w k (fun _ _ _ => 0%Z).

(** [a[:, :, :stop] = v]: [v] is broadcast to the shape of the slice. *)
Definition setitem_slice2 (a : ndarray3 Z) (stop : nat) (v : ndarray3 Z)
  : result (ndarray3 Z) :=
  let n := slice_len 0 stop (dim2 a) in
  if fits (dim0 a) (dim0 v) && fits (dim1 a) (dim1 v) && fits n (dim2 v)
  then
    Ok (mk3 (dim0 a) (dim1 a) (dim2 a)
            (fun y x k =>
               if k <? n
               then at3 v (bidx (dim0 v) y) (bidx (dim1 v) x) (bidx (dim2 v) k)
               else at3 a y x k))
  else Raise ValueError.

(** Lines 91-100; the result is what [io.imsave] is called with. *)
Definition dump_pred_to_png (pred : ndarray3 Q) (png_path : string)
  : result (string * ndarray3 Z) :=
  let c := dim0 pred in
  let h := dim1 pred in
  let w := dim2 pred in
  let pred := if 3 <? c then slice0 pred 3 else pred in
  (assert_min_ge0 pred ;;
   assert_max_le1 pred ;;
   let array := zeros3_uint8 h w 3 in
   array <- setitem_slice2 array c (transpose120 (to_8bit pred)) ;;
   Ok (png_path, array))%res.

(** ** [unet_vgg16]: the shapes of the tensors

    The network of [models/xdxd_sn4/vgg16.py] computes in floating point;
    what is modelled here is the shape [B, C, H, W] of every tensor of the
    forward pass, and where PyTorch rejects a shape ([None]).  The
    convolutions of the encoder are the thirteen of torchvision's VGG-16
    feature extractor, at the indices the constructor picks. *)

Module Vgg16.

Record shape4 : Set := mk4 {
  batch_n : nat;
  channels : nat;
  height : nat;
  width : nat
}.

Definition obind {A B} (m : option A) (k : A -> option B) : option B :=
  match m with
  | Some a => k a
  | None => None
  end.

(** [nn.Conv2d(in_, out, k, padding=pad)]: the input has [in_] channels and
    the padded input is not smaller than the kernel. *)
Definition conv2d (in_ out k pad : nat) (x : shape4) : option shape4 :=
  if (channels x =? in_) && (k <=? height x + 2 * pad)
     && (k <=? width x + 2 * pad)
  then Some (mk4 (batch_n x) out (height x + 2 * pad - k + 1)
                 (width x + 2 * pad - k + 1))
  else None.

(** [nn.ReLU] keeps the shape. *)
Definition relu (x : shape4) : option shape4 := Some x.

(** [nn.MaxPool2d(2, 2)]: an output without pixels is rejected. *)
Definition pool (x : shape4) : option shape4 :=
  if (2 <=? height x) && (2 <=? width x)
  then Some (mk4 (batch_n x) (channels x) ((height x - 2) / 2 + 1)
                 ((width x - 2) / 2 + 1))
  else None.

(** [nn.Upsample(scale_factor=2)] *)
Definition upsample (x : shape4) : option shape4 :=
  Some (mk4 (batch_n x) (channels x) (2 * height x) (2 * width x)).

(** [torch.cat([a, b], 1)]: all sizes but the channels agree. *)
Definition cat (a b : shape4) : option shape4 :=
  if (batch_n a =? batch_n b) && (height a =? height b)
     && (width a =? width b)
  then Some (mk4 (batch_n a) (channels a + channels b) (height a) (width a))
  else None.

(** [conv_relu(in_, out)] *)
Definition conv_relu (in_ out : nat) (x : shape4) : option shape4 :=
  obind (conv2d in_ out 3 1 x) relu.

(** [decoder_block(in_channels, middle_channels, out_channels)] *)
Definition decoder_block (in_channels middle_channels out_channels : nat)
           (x : shape4) : option shape4 :=
  obind (upsample x) (fun x =>
  obind (conv_relu in_channels middle_channels x)
        (conv_relu middle_channels out_channels)).

(** The stages [conv1] ... [conv5] of the encoder. *)
Definition stage2 (in_ out : nat) (x : shape4) : option shape4 :=
  obind (conv2d in_ out 3 1 x) (fun x =>
  obind (relu x) (fun x =>
  obind (conv2d out out 3 1 x) relu)).

Definition stage3 (in_ out : nat) (x : shape4) : option shape4 :=
  obind (stage2 in_ out x) (fun x =>
  obind (conv2d out out 3 1 x) relu).

(** [unet_vgg16(num_filters).forward] *)
Definition forward (num_filters : nat) (x : shape4) : option shape4 :=
  obind (stage2 3 64 x) (fun conv1 =>
  obind (obind (pool conv1) (stage2 64 128)) (fun conv2 =>
  obind (obind (pool conv2) (stage3 128 256)) (fun conv3 =>
  obind (obind (pool conv3) (stage3 256 512)) (fun conv4 =>
  obind (obind (pool conv4) (stage3 512 512)) (fun conv5 =>
  obind (obind (pool conv5)
               (decoder_block 512 (num_filters * 8 * 2) (num_filters * 8)))
        (fun center =>
  obind (obind (cat center conv5)
               (decoder_block (512 + num_filters * 8) (num_filters * 8 * 2)
                              (num_filters * 8)))
        (fun dec5 =>
  obind (obind (cat dec5 conv4)
               (decoder_block (512 + num_filters * 8) (num_filters * 8 * 2)
                              (num_filters * 8)))
        (fun dec4 =>
  obind (obind (cat dec4 conv3)
               (decoder_block (256 + num_filters * 8) (num_filters * 4 * 2)
                              (num_filters * 2)))
        (fun dec3 =>
  obind (obind (cat dec3 conv2)
               (decoder_block (128 + num_filters * 2) (num_filters * 2 * 2)
                              num_filters))
        (fun dec2 =>
  obind (obind (cat dec2 conv1) (conv_relu (64 + num_filters) num_filters))
        (fun dec1 =>
  conv2d num_filters 1 1 0 dec1))))))))))).

End Vgg16.

(** ** Further notions the statements use *)

(** The sum of the entries (c, y, x) of the maps, each times its weight. *)
Fixpoint weighted_sum (weights : list Q) (maps : list (ndarray3 Q))
         (c y x : nat) : Q :=
  match maps, weights with
  | m :: maps', w :: weights' =>
      (at3 m c y x * w + weighted_sum weights' maps' c y x)%Q
  | _, _ => 0%Q
  end.

(** A path component: no separator in it. *)
Fixpoint sep_free (s : string) : bool :=
  match s with
  | EmptyString => true
  | String c r => negb (OsPath.is_sep c) && sep_free r
  end.

(** The variants in the order [prepare_test_dataloaders] lists them, as
    (horizontal flip, vertical flip). *)
Definition variant_flags (a : args) : list (bool * bool) :=
  (false, false)
    :: (if tta_hflip a then [(true, false)] else [])
    ++ (if tta_vflip a then [(false, true)] else []).

(** * Properties *)

(** ** Proof tools *)

Lemma rbind_ok {A B} (m : result A) (k : A -> result B) (b : B) :
  rbind m k = Ok b -> exists a, m = Ok a /\ k a = Ok b.
Proof.
  destruct m as [a|e]; simpl; intros H; [exists a; auto | discriminate].
Qed.

Lemma py_assert_ok (b : bool) : py_assert b = Ok tt <-> b = true.
Proof. destruct b; simpl; split; intros H; congruence. Qed.

Lemma py_assert_raise (b : bool) (e : exn) :
  py_assert b = Raise e -> b = false /\ e = AssertionError.
Proof. destruct b; simpl; intros H; [discriminate | split; congruence]. Qed.

Ltac inv_res H :=
  repeat match type of H with
         | rbind _ _ = Ok _ =>
             let a := fresh "a" in
             let Ha := fresh "Ha" in
             apply rbind_ok in H; destruct H as (a & Ha & H)
         end.

(** ** Center crop *)

Lemma slice_len_exact (start len n : nat) :
  start + len <= n -> slice_len start (len + start) n = len.
Proof. unfold slice_len; intros H; lia. Qed.

Lemma slice_start_exact (start n : nat) :
  start <= n -> slice_start start n = start.
Proof. unfold slice_start; intros H; lia. Qed.

Lemma margin_fits (n crop : nat) : crop <= n -> (n - crop) / 2 + crop <= n.
Proof.
  intros H. pose proof (Nat.div_mod_eq (n - crop) 2) as E. lia.
Qed.

Lemma crop_center_ok {A} (pred : ndarray3 A) (crop_w crop_h : nat) :
  crop_w <= dim2 pred -> crop_h <= dim1 pred ->
  crop_center pred (crop_w, crop_h)
  = Ok (mk3 (dim0 pred) crop_h crop_w
            (fun c y x => at3 pred c ((dim1 pred - crop_h) / 2 + y)
                                     ((dim2 pred - crop_w) / 2 + x))).
Proof.
  intros Hw Hh. unfold crop_center.
  rewrite (proj2 (Nat.leb_le _ _) Hw), (proj2 (Nat.leb_le _ _) Hh).
  cbn [py_assert rbind]. unfold slice12.
  pose proof (margin_fits Hw) as Mw. pose proof (margin_fits Hh) as Mh.
  rewrite !slice_len_exact by lia.
  rewrite !slice_start_exact by lia.
  reflexivity.
Qed.

Lemma crop_center_raise {A} (pred : ndarray3 A) (crop_w crop_h : nat) :
  dim2 pred < crop_w \/ dim1 pred < crop_h ->
  crop_center pred (crop_w, crop_h) = Raise AssertionError.
Proof.
  intros H. unfold crop_center.
  destruct (crop_w <=? dim2 pred) eqn:Ew; cbn [py_assert rbind]; [|reflexivity].
  destruct (crop_h <=? dim1 pred) eqn:Eh; cbn [py_assert rbind]; [|reflexivity].
  apply Nat.leb_le in Ew, Eh. lia.
Qed.

Lemma crop_center_inv {A} (pred r : ndarray3 A) (crop_w crop_h : nat) :
  crop_center pred (crop_w, crop_h) = Ok r ->
  crop_w <= dim2 pred /\ crop_h <= dim1 pred /\
  r = mk3 (dim0 pred) crop_h crop_w
          (fun c y x => at3 pred c ((dim1 pred - crop_h) / 2 + y)
                                   ((dim2 pred - crop_w) / 2 + x)).
Proof.
  intros H.
  destruct (le_lt_dec crop_w (dim2 pred)) as [Hw|Hw].
  - destruct (le_lt_dec crop_h (dim1 pred)) as [Hh|Hh].
    + rewrite crop_center_ok in H by assumption.
      repeat split; try assumption. congruence.
    + rewrite crop_center_raise in H by auto. discriminate.
  - rewrite crop_center_raise in H by auto. discriminate.
Qed.

(** C1.  For a map of shape [C, H, W] and a target (crop_w, crop_h): when
    crop_h <= H and crop_w <= W the center crop returns an array of shape
    exactly [C, crop_h, crop_w] whose entry (c, y, x) is the entry
    (c, (H - crop_h) / 2 + y, (W - crop_w) / 2 + x) of the map, a position
    inside the map; when the target exceeds the map in either dimension
    the crop raises AssertionError and returns nothing. *)
Theorem crop_center_correct {A} (pred : ndarray3 A) (crop_h crop_w : nat) :
  (crop_h <= dim1 pred -> crop_w <= dim2 pred ->
   exists r,
     crop_center pred (crop_w, crop_h) = Ok r /\
     shape3 r = (dim0 pred, crop_h, crop_w) /\
     forall c y x, y < crop_h -> x < crop_w ->
       (dim1 pred - crop_h) / 2 + y < dim1 pred /\
       (dim2 pred - crop_w) / 2 + x < dim2 pred /\
       at3 r c y x = at3 pred c ((dim1 pred - crop_h) / 2 + y)
                                ((dim2 pred - crop_w) / 2 + x)) /\
  (dim1 pred < crop_h \/ dim2 pred < crop_w ->
   crop_center pred (crop_w, crop_h) = Raise AssertionError).
Proof.
  split.
  - intros Hh Hw. eexists. split; [apply crop_center_ok; assumption|].
    split; [reflexivity|].
    intros c y x Hy Hx. cbn [at3].
    pose proof (margin_fits Hw). pose proof (margin_fits Hh).
    repeat split; try reflexivity; lia.
  - intros H. apply crop_center_raise. tauto.
Qed.

(** ** Masked assignment *)

Lemma setitem_mask_all_inv (pred r : ndarray3 Q) (mask : ndarray2 bool) :
  setitem_mask_all pred mask = Ok r ->
  rows mask = dim1 pred /\ cols mask = dim2 pred /\
  r = mk3 (dim0 pred) (dim1 pred) (dim2 pred)
          (fun c y x => if at2 mask y x then 0%Q else at3 pred c y x).
Proof.
  unfold setitem_mask_all.
  destruct (rows mask =? dim1 pred) eqn:E1; [|discriminate].
  destruct (cols mask =? dim2 pred) eqn:E2; [|discriminate].
  apply Nat.eqb_eq in E1, E2. cbn [andb]. intros H.
  repeat split; congruence.
Qed.

Lemma setitem_mask_chan_ok (pred : ndarray3 Q) (k : nat) (mask : ndarray2 bool) :
  k < dim0 pred -> rows mask = dim1 pred -> cols mask = dim2 pred ->
  setitem_mask_chan pred k mask
  = Ok (mk3 (dim0 pred) (dim1 pred) (dim2 pred)
            (fun c y x => if (c =? k) && at2 mask y x then 0%Q
                          else at3 pred c y x)).
Proof.
  intros Hk Hr Hc. unfold setitem_mask_chan.
  rewrite (proj2 (Nat.ltb_lt _ _) Hk), Hr, Hc, !Nat.eqb_refl. reflexivity.
Qed.

Lemma setitem_mask_chan_inv (pred r : ndarray3 Q) (k : nat)
      (mask : ndarray2 bool) :
  setitem_mask_chan pred k mask = Ok r ->
  k < dim0 pred /\ rows mask = dim1 pred /\ cols mask = dim2 pred /\
  r = mk3 (dim0 pred) (dim1 pred) (dim2 pred)
          (fun c y x => if (c =? k) && at2 mask y x then 0%Q
                        else at3 pred c y x).
Proof.
  unfold setitem_mask_chan.
  destruct (k <? dim0 pred) eqn:E0; [|discriminate].
  destruct (rows mask =? dim1 pred) eqn:E1; [|discriminate].
  destruct (cols mask =? dim2 pred) eqn:E2; [|discriminate].
  apply Nat.ltb_lt in E0. apply Nat.eqb_eq in E1, E2. cbn [andb]. intros H.
  repeat split; congruence.
Qed.

Lemma setitem_mask_chan_mismatch (pred : ndarray3 Q) (k : nat)
      (mask : ndarray2 bool) :
  rows mask <> dim1 pred \/ cols mask <> dim2 pred ->
  setitem_mask_chan pred k mask = Raise IndexError.
Proof.
  intros H. unfold setitem_mask_chan.
  destruct (rows mask =? dim1 pred) eqn:E1;
    [|rewrite andb_false_r; reflexivity].
  destruct (cols mask =? dim2 pred) eqn:E2;
    [|rewrite andb_false_r; reflexivity].
  apply Nat.eqb_eq in E1, E2. tauto.
Qed.

Lemma flood_at_cons (k c : nat) (class_name : string) (rest : list string) :
  flood_at k (class_name :: rest) c
  = ((c =? k) && is_flood_class class_name) || flood_at (S k) rest c.
Proof.
  unfold flood_at.
  destruct (Nat.lt_trichotomy c k) as [Hlt|[Heq|Hgt]].
  - replace (c - k) with 0 by lia. replace (c - S k) with 0 by lia.
    cbn [nth_error].
    replace (k <=? c) with false by (symmetry; apply Nat.leb_gt; lia).
    replace (c =? k) with false by (symmetry; apply Nat.eqb_neq; lia).
    replace (S k <=? c) with false by (symmetry; apply Nat.leb_gt; lia).
    destruct rest; reflexivity.
  - subst c. rewrite Nat.sub_diag. replace (k - S k) with 0 by lia.
    cbn [nth_error]. rewrite Nat.leb_refl, Nat.eqb_refl.
    replace (S k <=? k) with false by (symmetry; apply Nat.leb_gt; lia).
    destruct rest; cbn [andb orb]; rewrite ?orb_false_r; reflexivity.
  - replace (c - k) with (S (c - S k)) by lia. cbn [nth_error].
    replace (c =? k) with false by (symmetry; apply Nat.eqb_neq; lia).
    replace (k <=? c) with true by (symmetry; apply Nat.leb_le; lia).
    replace (S k <=? c) with true by (symmetry; apply Nat.leb_le; lia).
    reflexivity.
Qed.

Lemma flood_at_0 (classes : list string) (c : nat) :
  flood_at 0 classes c = match nth_error classes c with
                         | Some class_name => is_flood_class class_name
                         | None => false
                         end.
Proof. unfold flood_at. rewrite Nat.sub_0_r. reflexivity. Qed.

Lemma is_flood_class_In (class_name : string) :
  is_flood_class class_name = true <-> In class_name flood_classes.
Proof.
  unfold is_flood_class. rewrite existsb_exists. split.
  - intros (s & Hin & E). apply String.eqb_eq in E. congruence.
  - intros Hin. exists class_name. split; [assumption|apply String.eqb_refl].
Qed.

(** What the class loop returns, whenever it returns. *)
Lemma mask_flood_from_inv (classes : list string) :
  forall (k : nat) (mask : ndarray2 bool) (pred r : ndarray3 Q),
    mask_flood_from k classes mask pred = Ok r ->
    shape3 r = shape3 pred /\
    forall c y x,
      at3 r c y x = if flood_at k classes c && at2 mask y x then 0%Q
                    else at3 pred c y x.
Proof.
  induction classes as [|class_name rest IH]; intros k mask pred r H.
  - cbn in H. injection H as <-. split; [reflexivity|].
    intros c y x. unfold flood_at. destruct (c - k); reflexivity.
  - cbn [mask_flood_from] in H. apply rbind_ok in H.
    destruct H as (p' & Hstep & Hrest).
    apply IH in Hrest. destruct Hrest as (Hshape & Hat).
    destruct (is_flood_class class_name) eqn:Ef.
    + apply setitem_mask_chan_inv in Hstep.
      destruct Hstep as (_ & _ & _ & ->).
      split; [exact Hshape|].
      intros c y x. rewrite Hat, flood_at_cons, Ef. cbn [at3].
      rewrite andb_true_r.
      destruct (flood_at (S k) rest c), (c =? k), (at2 mask y x); reflexivity.
    + injection Hstep as <-. split; [exact Hshape|].
      intros c y x. rewrite Hat, flood_at_cons, Ef.
      rewrite andb_false_r. reflexivity.
Qed.

(** The class loop returns when the mask has the map's spatial shape and
    every class index is a channel of the map. *)
Lemma mask_flood_from_ok (classes : list string) :
  forall (k : nat) (mask : ndarray2 bool) (pred : ndarray3 Q),
    rows mask = dim1 pred -> cols mask = dim2 pred ->
    k + List.length classes <= dim0 pred ->
    exists r, mask_flood_from k classes mask pred = Ok r.
Proof.
  induction classes as [|class_name rest IH]; intros k mask pred Hr Hc Hk.
  - eexists; reflexivity.
  - cbn [mask_flood_from List.length] in *.
    destruct (is_flood_class class_name).
    + rewrite setitem_mask_chan_ok by (try assumption; lia).
      cbn [rbind]. apply IH; cbn [dim0 dim1 dim2]; try assumption; lia.
    + cbn [rbind]. apply IH; try assumption; lia.
Qed.

(** With a flood-type class in the list, a mask of another shape makes the
    class loop raise. *)
Lemma mask_flood_from_mismatch (classes : list string) :
  forall (k : nat) (mask : ndarray2 bool) (pred : ndarray3 Q),
    existsb is_flood_class classes = true ->
    rows mask <> dim1 pred \/ cols mask <> dim2 pred ->
    mask_flood_from k classes mask pred = Raise IndexError.
Proof.
  induction classes as [|class_name rest IH]; intros k mask pred Hex Hne.
  - discriminate.
  - cbn [mask_flood_from existsb] in *.
    destruct (is_flood_class class_name).
    + rewrite setitem_mask_chan_mismatch by assumption. reflexivity.
    + cbn [rbind orb] in *. apply IH; assumption.
Qed.

(** ** The nodata mask of the post-event images *)

Lemma bidx_in_range (d i : nat) : i < d -> bidx d i = i.
Proof.
  intros H. unfold bidx. destruct (d =? 1) eqn:E; [|reflexivity].
  apply Nat.eqb_eq in E. lia.
Qed.

Lemma band_same_shape (a b : ndarray2 bool) :
  rows a = rows b -> cols a = cols b ->
  exists m, band a b = Ok m /\ shape2 m = shape2 a /\
            forall y x, y < rows a -> x < cols a ->
                        at2 m y x = at2 a y x && at2 b y x.
Proof.
  intros Hr Hc. unfold band, broadcast_dim.
  rewrite Hr, Hc, !Nat.eqb_refl. eexists. split; [reflexivity|].
  split; [unfold shape2; cbn; congruence|].
  intros y x Hy Hx. cbn [at2].
  rewrite !bidx_in_range by lia. reflexivity.
Qed.

Lemma sum_axis0_eq0_spec (image : ndarray3 Q) (y x : nat) :
  at2 (sum_axis0_eq0 image) y x = true <-> (sum_axis0 image y x == 0)%Q.
Proof. unfold sum_axis0_eq0. cbn [at2]. apply Qeq_bool_iff. Qed.

Lemma post_images_two (cfg : config) (b : batch) (ta tb : tensor4) :
  n_input_post_images cfg = 2%Z ->
  image_post_a b = Some ta -> image_post_b b = Some tb ->
  post_images cfg b = Ok (Some ta, Some tb).
Proof.
  intros Hn Ha Hb. unfold post_images. rewrite Hn, Ha, Hb. reflexivity.
Qed.

Lemma post_images_zero (cfg : config) (b : batch) :
  n_input_post_images cfg = 0%Z -> post_images cfg b = Ok (None, None).
Proof. intros Hn. unfold post_images. rewrite Hn. reflexivity. Qed.

(** C3.  With two post-event images configured, both are read from the
    batch; the post-nodata mask has the map's spatial shape and is true at
    a pixel exactly when the channel sum of post-image A is zero there and
    the channel sum of post-image B is zero there; the masking step
    returns a map of the same shape in which a channel is zero at a pixel
    when its class name is one of flood_building, flood_road, flood and
    the mask is true there, and every other entry (other pixels of those
    channels, every pixel of every other channel) is the entry of the
    input map. *)
Theorem post_mask_two_images (cfg : config) (b : batch) (ta tb : tensor4)
        (i orig_h orig_w : nat) (image_a image_b pred : ndarray3 Q) :
  n_input_post_images cfg = 2%Z ->
  image_post_a b = Some ta -> image_post_b b = Some tb ->
  nth_error ta i = Some image_a -> nth_error tb i = Some image_b ->
  dim1 image_a = dim1 pred -> dim2 image_a = dim2 pred ->
  dim1 image_b = dim1 pred -> dim2 image_b = dim2 pred ->
  List.length (flatten_classes cfg) <= dim0 pred ->
  post_images cfg b = Ok (Some ta, Some tb) /\
  exists mask r,
    post_nodata_mask i orig_h orig_w (Some ta) (Some tb) = Ok mask /\
    shape2 mask = (dim1 pred, dim2 pred) /\
    (forall y x, y < dim1 pred -> x < dim2 pred ->
       (at2 mask y x = true <->
        (sum_axis0 image_a y x == 0)%Q /\ (sum_axis0 image_b y x == 0)%Q)) /\
    mask_post_nodata cfg i orig_h orig_w (Some ta) (Some tb) pred = Ok r /\
    shape3 r = shape3 pred /\
    forall c y x, c < dim0 pred -> y < dim1 pred -> x < dim2 pred ->
      let flood_channel :=
        exists class_name,
          nth_error (flatten_classes cfg) c = Some class_name /\
          In class_name ["flood_building"; "flood_road"; "flood"]%string in
      (flood_channel /\ at2 mask y x = true -> at3 r c y x = 0%Q) /\
      (~ (flood_channel /\ at2 mask y x = true) ->
       at3 r c y x = at3 pred c y x).
Proof.
  intros Hn Ha Hb Hia Hib Ha1 Ha2 Hb1 Hb2 Hlen.
  split; [apply post_images_two; assumption|].
  destruct (@band_same_shape (sum_axis0_eq0 image_a) (sum_axis0_eq0 image_b))
    as (mask & Hband & Hshape & Hat); cbn [rows cols sum_axis0_eq0];
    try congruence.
  assert (Hmask : post_nodata_mask i orig_h orig_w (Some ta) (Some tb)
                  = Ok mask).
  { unfold post_nodata_mask, getitem. rewrite Hia, Hib. cbn [rbind].
    exact Hband. }
  unfold shape2 in Hshape. cbn [rows cols sum_axis0_eq0] in Hshape, Hat.
  injection Hshape as Hrows Hcols.
  destruct (@mask_flood_from_ok (flatten_classes cfg) 0 mask pred)
    as (r & Hr); try congruence; try lia.
  exists mask, r.
  split; [exact Hmask|].
  split; [unfold shape2; congruence|].
  split.
  { intros y x Hy Hx. rewrite Hat by lia.
    rewrite andb_true_iff, !sum_axis0_eq0_spec. reflexivity. }
  split; [unfold mask_post_nodata; rewrite Hmask; exact Hr|].
  apply mask_flood_from_inv in Hr. destruct Hr as (Hsh & Hentries).
  split; [exact Hsh|].
  intros c y x Hc Hy Hx. cbv zeta. rewrite Hentries, flood_at_0.
  split.
  - intros ((class_name & Hnth & Hin) & Hm).
    rewrite Hnth, (proj2 (is_flood_class_In class_name) Hin), Hm.
    reflexivity.
  - intros Hnot.
    destruct (nth_error (flatten_classes cfg) c) as [class_name|] eqn:Hnth;
      [|reflexivity].
    destruct (is_flood_class class_name) eqn:Ef; [|reflexivity].
    destruct (at2 mask y x) eqn:Em; [|reflexivity].
    exfalso. apply Hnot. split; [|reflexivity].
    exists class_name. split; [reflexivity|].
    apply is_flood_class_In. exact Ef.
Qed.

(** C10.  With zero post-event images configured, no post image is read
    and the mask is the all-false array of shape (original_height,
    original_width), whatever the map's shape.  Whenever the masking step
    returns, the map is unchanged at every entry; it returns when the
    map's spatial dimensions equal the original dimensions (and every
    class index is a channel of the map); and when the class list holds a
    flood-type class and the map's spatial dimensions differ from the
    original ones, the masked assignment raises IndexError. *)
Theorem post_mask_no_images (cfg : config) (b : batch)
        (i orig_h orig_w : nat) (pred : ndarray3 Q) :
  n_input_post_images cfg = 0%Z ->
  post_images cfg b = Ok (None, None) /\
  post_nodata_mask i orig_h orig_w None None
  = Ok (zeros2_bool orig_h orig_w) /\
  shape2 (zeros2_bool orig_h orig_w) = (orig_h, orig_w) /\
  (forall y x, at2 (zeros2_bool orig_h orig_w) y x = false) /\
  (forall r, mask_post_nodata cfg i orig_h orig_w None None pred = Ok r ->
             same3 r pred) /\
  (dim1 pred = orig_h -> dim2 pred = orig_w ->
   List.length (flatten_classes cfg) <= dim0 pred ->
   exists r, mask_post_nodata cfg i orig_h orig_w None None pred = Ok r /\
             same3 r pred) /\
  ((exists class_name,
       In class_name (flatten_classes cfg) /\
       In class_name ["flood_building"; "flood_road"; "flood"]%string) ->
   dim1 pred <> orig_h \/ dim2 pred <> orig_w ->
   mask_post_nodata cfg i orig_h orig_w None None pred = Raise IndexError).
Proof.
  intros Hn.
  assert (Hsame : forall r,
             mask_post_nodata cfg i orig_h orig_w None None pred = Ok r ->
             same3 r pred).
  { intros r Hr. unfold mask_post_nodata, post_nodata_mask in Hr.
    cbn [rbind] in Hr. apply mask_flood_from_inv in Hr.
    destruct Hr as (Hsh & Hentries). split; [exact Hsh|].
    intros c y x _ _ _. rewrite Hentries. cbn [at2 zeros2_bool].
    rewrite andb_false_r. reflexivity. }
  split; [apply post_images_zero; exact Hn|].
  split; [reflexivity|].
  split; [reflexivity|].
  split; [reflexivity|].
  split; [exact Hsame|].
  split.
  - intros H1 H2 Hlen.
    destruct (@mask_flood_from_ok (flatten_classes cfg) 0
                (zeros2_bool orig_h orig_w) pred) as (r & Hr);
      cbn [rows cols zeros2_bool]; try congruence; try lia.
    exists r.
    assert (E : mask_post_nodata cfg i orig_h orig_w None None pred = Ok r)
      by exact Hr.
    split; [exact E | apply Hsame; exact E].
  - intros (class_name & Hin & Hflood) Hne.
    unfold mask_post_nodata, post_nodata_mask. cbn [rbind].
    apply mask_flood_from_mismatch.
    + apply existsb_exists. exists class_name. split; [exact Hin|].
      apply is_flood_class_In. exact Hflood.
    + cbn [rows cols zeros2_bool]. destruct Hne; [left|right]; congruence.
Qed.

(** ** Lists as Python lists *)

Lemma getitem_ok {A} (l : list A) (i : nat) (a : A) :
  getitem l i = Ok a <-> nth_error l i = Some a.
Proof.
  unfold getitem. destruct (nth_error l i); split; intros H; congruence.
Qed.


Lemma setitem_inv {A} (l : list A) :
  forall (i : nat) (v : A) (l' : list A),
    setitem l i v = Ok l' ->
    List.length l' = List.length l /\
    nth_error l' i = Some v /\
    forall j, j <> i -> nth_error l' j = nth_error l j.
Proof.
  induction l as [|a t IH]; intros i v l' H; [discriminate|].
  destruct i as [|j]; cbn [setitem] in H.
  - injection H as <-. repeat split. intros [|j] Hj; [lia|reflexivity].
  - apply rbind_ok in H. destruct H as (t' & Ht & E). injection E as <-.
    apply IH in Ht. destruct Ht as (Hlen & Hi & Hother).
    cbn [List.length nth_error]. repeat split; [lia|assumption|].
    intros [|k] Hk; [reflexivity|]. apply Hother. lia.
Qed.

Lemma setitem_in_range {A} (l : list A) :
  forall (i : nat) (v : A),
    i < List.length l -> exists l', setitem l i v = Ok l'.
Proof.
  induction l as [|a t IH]; intros i v H; cbn [List.length] in H; [lia|].
  destruct i as [|j]; cbn [setitem]; [eexists; reflexivity|].
  destruct (IH j v) as (t' & ->); [lia|]. eexists; reflexivity.
Qed.

(** ** In-place addition into the buffer *)

Lemma fits_spec (da db : nat) : fits da db = true <-> db = da \/ db = 1.
Proof.
  unfold fits. rewrite orb_true_iff, !Nat.eqb_eq. reflexivity.
Qed.


Lemma iadd_inv (a b r : ndarray3 Q) :
  iadd a b = Ok r ->
  fits (dim0 a) (dim0 b) = true /\ fits (dim1 a) (dim1 b) = true /\
  fits (dim2 a) (dim2 b) = true /\
  r = mk3 (dim0 a) (dim1 a) (dim2 a)
          (fun c y x => (at3 a c y x
                         + at3 b (bidx (dim0 b) c) (bidx (dim1 b) y)
                                 (bidx (dim2 b) x))%Q).
Proof.
  unfold iadd.
  destruct (fits (dim0 a) (dim0 b)); [|discriminate].
  destruct (fits (dim1 a) (dim1 b)); [|discriminate].
  destruct (fits (dim2 a) (dim2 b)); [|discriminate].
  cbn [andb]. intros H. repeat split. congruence.
Qed.

Lemma iadd_raise (a b : ndarray3 Q) :
  fits (dim0 a) (dim0 b) && fits (dim1 a) (dim1 b)
  && fits (dim2 a) (dim2 b) = false ->
  iadd a b = Raise ValueError.
Proof. intros H. unfold iadd. rewrite H. reflexivity. Qed.

Lemma accumulate_inv (weights : list Q) (dataloader_idx i : nat)
      (bufs bufs' : list (ndarray3 Q)) (pred : ndarray3 Q) :
  accumulate weights dataloader_idx i bufs pred = Ok bufs' ->
  exists acc w acc',
    nth_error bufs i = Some acc /\
    nth_error weights dataloader_idx = Some w /\
    iadd acc (scale pred w) = Ok acc' /\
    List.length bufs' = List.length bufs /\
    nth_error bufs' i = Some acc' /\
    forall j, j <> i -> nth_error bufs' j = nth_error bufs j.
Proof.
  unfold accumulate. intros H.
  apply rbind_ok in H. destruct H as (acc & Hacc & H).
  apply rbind_ok in H. destruct H as (w & Hw & H).
  apply rbind_ok in H. destruct H as (acc' & Hadd & H).
  apply setitem_inv in H. destruct H as (Hlen & Hi & Hother).
  apply getitem_ok in Hacc, Hw.
  exists acc, w, acc'. auto 10.
Qed.

(** An invariant of the accumulator of sample [i], indexed by the number
    of variants added so far, is carried through the variants. *)
Lemma accumulate_from_invariant (weights : list Q) (i : nat)
      (Inv : nat -> ndarray3 Q -> Prop) (Good : ndarray3 Q -> Prop) :
  (forall k acc m w acc',
      Inv k acc -> Good m -> nth_error weights k = Some w ->
      iadd acc (scale m w) = Ok acc' -> Inv (S k) acc') ->
  forall maps k bufs bufs' acc0,
    Forall Good maps ->
    accumulate_from weights k i maps bufs = Ok bufs' ->
    nth_error bufs i = Some acc0 -> Inv k acc0 ->
    exists acc, nth_error bufs' i = Some acc /\
                Inv (k + List.length maps) acc.
Proof.
  intros Hstep maps.
  induction maps as [|m rest IH]; intros k bufs bufs' acc0 Hgood Hrun H0 Hinv.
  - cbn in Hrun. injection Hrun as <-. exists acc0.
    rewrite Nat.add_0_r. auto.
  - cbn [accumulate_from] in Hrun. apply rbind_ok in Hrun.
    destruct Hrun as (bufs1 & Hacc & Hrest).
    apply accumulate_inv in Hacc.
    destruct Hacc as (acc & w & acc' & Hi & Hw & Hadd & _ & Hi' & _).
    apply Forall_cons_iff in Hgood. destruct Hgood as (Hm & Hrest_good).
    assert (acc = acc0) by congruence. subst acc.
    destruct (IH (S k) bufs1 bufs' acc' Hrest_good Hrest Hi') as (r & Hr & HI).
    { eapply Hstep; eassumption. }
    exists r. split; [exact Hr|].
    cbn [List.length]. rewrite Nat.add_succ_r. exact HI.
Qed.


(** ** The bound assertions and the hand-over to the raster writer *)

Lemma all3_spec {A} (f : A -> bool) (p : ndarray3 A) :
  all3 f p = true <->
  forall c y x, c < dim0 p -> y < dim1 p -> x < dim2 p ->
                f (at3 p c y x) = true.
Proof.
  unfold all3. rewrite forallb_forall. split.
  - intros H c y x Hc Hy Hx.
    specialize (H c). rewrite in_seq, forallb_forall in H.
    specialize (H (conj (Nat.le_0_l c) Hc) y).
    rewrite in_seq, forallb_forall in H.
    apply (H (conj (Nat.le_0_l y) Hy) x). apply in_seq. lia.
  - intros H c Hc. apply in_seq in Hc.
    apply forallb_forall. intros y Hy. apply in_seq in Hy.
    apply forallb_forall. intros x Hx. apply in_seq in Hx.
    apply H; lia.
Qed.

Lemma size3_pos {A} (p : ndarray3 A) (c y x : nat) :
  c < dim0 p -> y < dim1 p -> x < dim2 p -> size3 p <> 0.
Proof.
  unfold size3. intros Hc Hy Hx E.
  apply Nat.eq_mul_0 in E. destruct E as [E|E]; [|lia].
  apply Nat.eq_mul_0 in E. lia.
Qed.



(** ** Bounds of the accumulated map *)



Lemma prepared_weights (gtd : config -> bool -> bool -> bool -> list batch)
      (cfg : config) (a : args) (dls : list (list batch))
      (flags_h flags_v : list bool) (weights : list Q) :
  prepare_test_dataloaders gtd cfg a = (dls, flags_h, flags_v, weights) ->
  (Qsum weights == 1)%Q /\
  (forall w, In w weights -> (0 <= w)%Q) /\
  List.length dls = List.length weights /\
  List.length flags_h = List.length weights /\
  List.length flags_v = List.length weights /\
  1 <= List.length weights.
Proof.
  unfold prepare_test_dataloaders.
  destruct (tta_hflip a), (tta_vflip a); cbn; intros H;
    injection H as <- <- <- <-; cbn;
    (split; [reflexivity|]); (split; [|repeat split; lia]);
    intros w Hw; repeat (destruct Hw as [<-|Hw]; [discriminate|]);
    contradiction.
Qed.

Lemma fresh_buffer_nth (cfg : config) (batch_size i : nat) (acc : ndarray3 Q) :
  nth_error (fresh_buffer cfg batch_size) i = Some acc ->
  i < batch_size /\
  acc = zeros3 (List.length (flatten_classes cfg)) BUFFER_SIZE BUFFER_SIZE.
Proof.
  intros H. unfold fresh_buffer in *. split.
  - rewrite <- (repeat_length
                  (zeros3 (List.length (flatten_classes cfg))
                          BUFFER_SIZE BUFFER_SIZE) batch_size).
    apply nth_error_Some. congruence.
  - apply nth_error_In in H. apply repeat_spec in H. exact H.
Qed.

Lemma fresh_buffer_in_range (cfg : config) (batch_size i : nat) :
  i < batch_size ->
  nth_error (fresh_buffer cfg batch_size) i
  = Some (zeros3 (List.length (flatten_classes cfg)) BUFFER_SIZE BUFFER_SIZE).
Proof.
  intros H.
  destruct (nth_error (fresh_buffer cfg batch_size) i) as [acc|] eqn:E.
  - apply fresh_buffer_nth in E. destruct E as (_ & ->). reflexivity.
  - apply nth_error_None in E. unfold fresh_buffer in E.
    rewrite repeat_length in E. lia.
Qed.


(** ** Rectification of one variant's map *)

Lemma unflip_spec (vflip hflip : bool) (p : ndarray3 Q) :
  shape3 (unflip vflip hflip p) = shape3 p /\
  forall c y x,
    at3 (unflip vflip hflip p) c y x
    = at3 p c (src_index vflip (dim1 p) y) (src_index hflip (dim2 p) x).
Proof. destruct vflip, hflip; split; reflexivity. Qed.

Lemma src_index_in_range (flip : bool) (n j : nat) :
  j < n -> src_index flip n j < n.
Proof. intros H. destruct flip; cbn; lia. Qed.

Lemma mask_pre_nodata_inv (pred image r : ndarray3 Q) :
  mask_pre_nodata pred image = Ok r ->
  dim1 image = dim1 pred /\ dim2 image = dim2 pred /\
  shape3 r = shape3 pred /\
  forall c y x,
    at3 r c y x = if Qeq_bool (sum_axis0 image y x) 0 then 0%Q
                  else at3 pred c y x.
Proof.
  unfold mask_pre_nodata. intros H. apply setitem_mask_all_inv in H.
  destruct H as (Hr & Hc & ->). cbn [rows cols sum_axis0_eq0] in Hr, Hc.
  repeat split; assumption.
Qed.

Lemma mask_post_nodata_inv (cfg : config) (i orig_h orig_w : nat)
      (pa pb : option tensor4) (pred r : ndarray3 Q) :
  mask_post_nodata cfg i orig_h orig_w pa pb pred = Ok r ->
  shape3 r = shape3 pred /\
  forall c y x, at3 r c y x = at3 pred c y x \/ at3 r c y x = 0%Q.
Proof.
  unfold mask_post_nodata. intros H. apply rbind_ok in H.
  destruct H as (mask & _ & H). apply mask_flood_from_inv in H.
  destruct H as (Hs & Hat). split; [exact Hs|].
  intros c y x. rewrite Hat.
  destruct (flood_at 0 (flatten_classes cfg) c && at2 mask y x); auto.
Qed.

Lemma rectify_inv (cfg : config) (flags_h flags_v : list bool)
      (dataloader_idx i : nat) (images : tensor4) (pa pb : option tensor4)
      (orig_h orig_w : nat) (pred r : ndarray3 Q) :
  rectify cfg flags_h flags_v dataloader_idx i images pa pb orig_h orig_w pred
  = Ok r ->
  exists image vflip hflip p1 p2,
    nth_error images i = Some image /\
    nth_error flags_v dataloader_idx = Some vflip /\
    nth_error flags_h dataloader_idx = Some hflip /\
    mask_pre_nodata pred image = Ok p1 /\
    mask_post_nodata cfg i orig_h orig_w pa pb p1 = Ok p2 /\
    crop_center (unflip vflip hflip p2) (orig_w, orig_h) = Ok r.
Proof.
  unfold rectify. intros H.
  apply rbind_ok in H. destruct H as (image & Himage & H).
  apply rbind_ok in H. destruct H as (p1 & Hp1 & H).
  apply rbind_ok in H. destruct H as (p2 & Hp2 & H).
  apply rbind_ok in H. destruct H as (vflip & Hv & H).
  apply rbind_ok in H. destruct H as (hflip & Hh & H).
  apply getitem_ok in Himage, Hv, Hh.
  exists image, vflip, hflip, p1, p2. auto 10.
Qed.

(** The rectified map has the channels of the model's map and the
    original size; its entry (c, y, x) is zero or the entry of the model's
    map at the source position of (y, x), and it is zero when the
    pre-event image has no data at that source position. *)
Lemma rectify_entries (cfg : config) (flags_h flags_v : list bool)
      (dataloader_idx i : nat) (images : tensor4) (pa pb : option tensor4)
      (orig_h orig_w : nat) (pred r image : ndarray3 Q)
      (vflip hflip : bool) :
  rectify cfg flags_h flags_v dataloader_idx i images pa pb orig_h orig_w pred
  = Ok r ->
  nth_error images i = Some image ->
  nth_error flags_v dataloader_idx = Some vflip ->
  nth_error flags_h dataloader_idx = Some hflip ->
  shape3 r = (dim0 pred, orig_h, orig_w) /\
  dim1 image = dim1 pred /\ dim2 image = dim2 pred /\
  forall c y x, y < orig_h -> x < orig_w ->
    let sy := src_index vflip (dim1 pred) ((dim1 pred - orig_h) / 2 + y) in
    let sx := src_index hflip (dim2 pred) ((dim2 pred - orig_w) / 2 + x) in
    sy < dim1 pred /\ sx < dim2 pred /\
    (at3 r c y x = at3 pred c sy sx \/ at3 r c y x = 0%Q) /\
    ((sum_axis0 image sy sx == 0)%Q -> at3 r c y x = 0%Q).
Proof.
  intros H Himage Hv Hh. apply rectify_inv in H.
  destruct H as (image' & v' & h' & p1 & p2 & E1 & E2 & E3 & Hp1 & Hp2 & Hc).
  assert (image' = image) by congruence.
  assert (v' = vflip) by congruence. assert (h' = hflip) by congruence.
  subst image' v' h'.
  apply mask_pre_nodata_inv in Hp1.
  destruct Hp1 as (Hd1 & Hd2 & Hs1 & Hat1).
  apply mask_post_nodata_inv in Hp2. destruct Hp2 as (Hs2 & Hat2).
  destruct (unflip_spec vflip hflip p2) as (Hs3 & Hat3).
  apply crop_center_inv in Hc. destruct Hc as (Hw & Hh' & ->).
  unfold shape3 in Hs1, Hs2, Hs3.
  injection Hs1 as A0 A1 A2. injection Hs2 as B0 B1 B2.
  injection Hs3 as C0 C1 C2.
  assert (D1 : dim1 (unflip vflip hflip p2) = dim1 pred) by congruence.
  assert (D2 : dim2 (unflip vflip hflip p2) = dim2 pred) by congruence.
  split; [unfold shape3; cbn [dim0 dim1 dim2]; congruence|].
  split; [exact Hd1|]. split; [exact Hd2|].
  intros c y x Hy Hx. cbv zeta. cbn [at3].
  rewrite Hat3, D1, D2 in *.
  assert (E21 : dim1 p2 = dim1 pred) by congruence.
  assert (E22 : dim2 p2 = dim2 pred) by congruence.
  rewrite E21, E22.
  pose proof (margin_fits Hw) as Mw. pose proof (margin_fits Hh') as Mh.
  set (sy := src_index vflip (dim1 pred) ((dim1 pred - orig_h) / 2 + y)).
  set (sx := src_index hflip (dim2 pred) ((dim2 pred - orig_w) / 2 + x)).
  split; [apply src_index_in_range; lia|].
  split; [apply src_index_in_range; lia|].
  specialize (Hat2 c sy sx). specialize (Hat1 c sy sx).
  split.
  - destruct Hat2 as [Hk|Hz]; [|right; exact Hz].
    rewrite Hk, Hat1.
    destruct (Qeq_bool (sum_axis0 image sy sx) 0); [right|left]; reflexivity.
  - intros Hzero. apply Qeq_bool_iff in Hzero. rewrite Hzero in Hat1.
    destruct Hat2 as [Hk|Hz]; congruence.
Qed.

(** A pixel that is zero in every added map is zero in the accumulator. *)
Lemma accumulate_from_zero_pixel (weights : list Q) (i : nat)
      (shape : nat * nat * nat) (c y x : nat) :
  c < fst (fst shape) -> y < snd (fst shape) -> x < snd shape ->
  forall maps bufs bufs' acc0,
    Forall (fun m => shape3 m = shape /\ at3 m c y x = 0%Q) maps ->
    accumulate_from weights 0 i maps bufs = Ok bufs' ->
    nth_error bufs i = Some acc0 ->
    shape3 acc0 = shape -> (at3 acc0 c y x == 0)%Q ->
    exists acc, nth_error bufs' i = Some acc /\ shape3 acc = shape /\
                (at3 acc c y x == 0)%Q.
Proof.
  intros Hc Hy Hx maps bufs bufs' acc0 Hgood Hrun H0 Hs0 Hz0.
  pose (Inv := fun (_ : nat) (acc : ndarray3 Q) =>
                 shape3 acc = shape /\ (at3 acc c y x == 0)%Q).
  destruct (@accumulate_from_invariant weights i Inv
              (fun m => shape3 m = shape /\ at3 m c y x = 0%Q))
    with (maps := maps) (k := 0) (bufs := bufs) (bufs' := bufs')
         (acc0 := acc0) as (acc & Hacc & HI); try assumption.
  - intros k acc m w acc' (Hs & Hz) (Hm & Hmz) _ Hadd.
    apply iadd_inv in Hadd. destruct Hadd as (_ & _ & _ & ->).
    split; [exact Hs|]. cbn [at3 scale dim0 dim1 dim2].
    rewrite <- Hm in Hc, Hy, Hx. cbn [shape3 fst snd] in Hc, Hy, Hx.
    rewrite !bidx_in_range by assumption.
    rewrite Hmz, Hz. ring.
  - split; assumption.
  - exists acc. destruct HI. auto.
Qed.

(** C4.  For every variant, the rectified map of a sample has shape
    (channels, original_height, original_width), and every pixel whose
    source position in that variant's pre-event tensor has channel sum
    zero is 0 in all class channels of the rectified map; consequently a
    pixel that is 0 in all channels of every variant's rectified map is 0
    in all channels of the accumulated map of the sample. *)
Theorem pre_nodata_pixels_are_zero (cfg : config)
        (flags_h flags_v : list bool) (weights : list Q) :
  (forall (dataloader_idx i : nat) (images : tensor4)
          (pa pb : option tensor4) (orig_h orig_w : nat)
          (pred r image : ndarray3 Q) (vflip hflip : bool),
      rectify cfg flags_h flags_v dataloader_idx i images pa pb
              orig_h orig_w pred = Ok r ->
      nth_error images i = Some image ->
      nth_error flags_v dataloader_idx = Some vflip ->
      nth_error flags_h dataloader_idx = Some hflip ->
      shape3 r = (dim0 pred, orig_h, orig_w) /\
      forall c y x, c < dim0 pred -> y < orig_h -> x < orig_w ->
        let sy := src_index vflip (dim1 image)
                            ((dim1 image - orig_h) / 2 + y) in
        let sx := src_index hflip (dim2 image)
                            ((dim2 image - orig_w) / 2 + x) in
        sy < dim1 image /\ sx < dim2 image /\
        ((sum_axis0 image sy sx == 0)%Q -> at3 r c y x = 0%Q)) /\
  (forall (i batch_size : nat) (maps : list (ndarray3 Q))
          (bufs' : list (ndarray3 Q)) (y x : nat),
      i < batch_size -> y < BUFFER_SIZE -> x < BUFFER_SIZE ->
      Forall (fun m =>
                shape3 m = (List.length (flatten_classes cfg),
                            BUFFER_SIZE, BUFFER_SIZE) /\
                forall c, c < List.length (flatten_classes cfg) ->
                          at3 m c y x = 0%Q) maps ->
      accumulate_from weights 0 i maps (fresh_buffer cfg batch_size)
      = Ok bufs' ->
      exists acc,
        nth_error bufs' i = Some acc /\
        forall c, c < List.length (flatten_classes cfg) ->
                  (at3 acc c y x == 0)%Q).
Proof.
  split.
  - intros dataloader_idx i images pa pb orig_h orig_w pred r image
           vflip hflip Hrect Himage Hv Hh.
    destruct (@rectify_entries cfg flags_h flags_v dataloader_idx i images pa pb
                orig_h orig_w pred r image vflip hflip Hrect Himage Hv Hh)
      as (Hs & D1 & D2 & Hent).
    split; [exact Hs|].
    intros c y x Hc Hy Hx. cbv zeta. rewrite D1, D2.
    destruct (Hent c y x Hy Hx) as (Hsy & Hsx & _ & Hz). auto.
  - intros i batch_size maps bufs' y x Hi Hy Hx Hmaps Hrun.
    pose proof (fresh_buffer_in_range cfg Hi) as H0.
    assert (Hsome : exists acc, nth_error bufs' i = Some acc /\
                                shape3 acc
                                = (List.length (flatten_classes cfg),
                                   BUFFER_SIZE, BUFFER_SIZE)).
    { destruct (@accumulate_from_invariant weights i
                  (fun _ acc => shape3 acc
                                = (List.length (flatten_classes cfg),
                                   BUFFER_SIZE, BUFFER_SIZE))
                  (fun _ => True))
        with (maps := maps) (k := 0)
             (bufs := fresh_buffer cfg batch_size) (bufs' := bufs')
             (acc0 := zeros3 (List.length (flatten_classes cfg))
                             BUFFER_SIZE BUFFER_SIZE)
        as (acc & Hacc & HI); try assumption; try reflexivity.
      - intros k acc m w acc' Hs _ _ Hadd. apply iadd_inv in Hadd.
        destruct Hadd as (_ & _ & _ & ->). exact Hs.
      - apply Forall_forall. auto.
      - exists acc. auto. }
    destruct Hsome as (acc & Hacc & _). exists acc.
    split; [exact Hacc|]. intros c Hc.
    destruct (@accumulate_from_zero_pixel weights i
                (List.length (flatten_classes cfg), BUFFER_SIZE, BUFFER_SIZE)
                c y x Hc Hy Hx maps (fresh_buffer cfg batch_size) bufs'
                (zeros3 (List.length (flatten_classes cfg))
                        BUFFER_SIZE BUFFER_SIZE))
      as (acc' & Hacc' & _ & Hz); try assumption; try reflexivity.
    + eapply Forall_impl; [|exact Hmaps]. cbv beta.
      intros m (Hs & Hm). split; [exact Hs|apply Hm; exact Hc].
    + assert (acc' = acc) by congruence. subst acc'. exact Hz.
Qed.

(** ** Quantisation *)



(** ** The fixed-size buffer *)

Lemma iadd_ok (a b : ndarray3 Q) :
  fits (dim0 a) (dim0 b) = true -> fits (dim1 a) (dim1 b) = true ->
  fits (dim2 a) (dim2 b) = true ->
  iadd a b
  = Ok (mk3 (dim0 a) (dim1 a) (dim2 a)
            (fun c y x => (at3 a c y x
                           + at3 b (bidx (dim0 b) c) (bidx (dim1 b) y)
                                   (bidx (dim2 b) x))%Q)).
Proof. intros F0 F1 F2. unfold iadd. rewrite F0, F1, F2. reflexivity. Qed.

Lemma accumulate_fresh (cfg : config) (weights : list Q)
      (dataloader_idx i batch_size : nat) (w : Q) (r : ndarray3 Q) :
  i < batch_size -> nth_error weights dataloader_idx = Some w ->
  accumulate weights dataloader_idx i (fresh_buffer cfg batch_size) r
  = rbind (iadd (zeros3 (List.length (flatten_classes cfg))
                        BUFFER_SIZE BUFFER_SIZE) (scale r w))
          (fun acc' => setitem (fresh_buffer cfg batch_size) i acc').
Proof.
  intros Hi Hw. unfold accumulate, getitem.
  rewrite (fresh_buffer_in_range cfg Hi), Hw. reflexivity.
Qed.

(** C9 (as the code has it).  The buffer of a batch holds, for every
    sample, a zero array of shape [C, 1300, 1300], whatever the original
    sizes are.  For a map cropped to (original_height, original_width)
    with C channels, the in-place addition into the buffer returns exactly
    when each original dimension is 1300 or 1: an axis of length 1 is
    broadcast, the buffer receiving at (c, y, x) the weighted entry read
    at index 0 along that axis; for every other original size the
    addition raises ValueError. *)
Theorem buffer_addition_shapes (cfg : config) (weights : list Q)
        (dataloader_idx i batch_size : nat) (w : Q)
        (p r : ndarray3 Q) (orig_h orig_w : nat) :
  i < batch_size ->
  nth_error weights dataloader_idx = Some w ->
  dim0 p = List.length (flatten_classes cfg) ->
  crop_center p (orig_w, orig_h) = Ok r ->
  (forall acc, In acc (fresh_buffer cfg batch_size) ->
               shape3 acc = (List.length (flatten_classes cfg), 1300, 1300)) /\
  ((orig_h = 1300 \/ orig_h = 1) /\ (orig_w = 1300 \/ orig_w = 1) ->
   exists bufs' acc,
     accumulate weights dataloader_idx i (fresh_buffer cfg batch_size) r
     = Ok bufs' /\
     nth_error bufs' i = Some acc /\
     shape3 acc = (List.length (flatten_classes cfg), 1300, 1300) /\
     forall c y x, c < List.length (flatten_classes cfg) ->
       (at3 acc c y x == at3 r c (bidx orig_h y) (bidx orig_w x) * w)%Q) /\
  (~ ((orig_h = 1300 \/ orig_h = 1) /\ (orig_w = 1300 \/ orig_w = 1)) ->
   accumulate weights dataloader_idx i (fresh_buffer cfg batch_size) r
   = Raise ValueError).
Proof.
  intros Hi Hw Hc Hcrop.
  apply crop_center_inv in Hcrop. destruct Hcrop as (_ & _ & ->).
  split.
  { intros acc Hin. unfold fresh_buffer in Hin. apply repeat_spec in Hin.
    subst acc. reflexivity. }
  rewrite (@accumulate_fresh cfg weights dataloader_idx i batch_size w _ Hi Hw).
  split.
  - intros (Hh & Hw').
    rewrite iadd_ok; cbn [dim0 dim1 dim2 zeros3 scale].
    + cbn [rbind].
      destruct (@setitem_in_range _ (fresh_buffer cfg batch_size) i
                  (mk3 (List.length (flatten_classes cfg)) BUFFER_SIZE
                       BUFFER_SIZE
                       (fun c y x =>
                          (0 + at3 p (bidx (dim0 p) c)
                                   ((dim1 p - orig_h) / 2 + bidx orig_h y)
                                   ((dim2 p - orig_w) / 2 + bidx orig_w x)
                               * w)%Q)))
        as (bufs' & Hset).
      { unfold fresh_buffer. rewrite repeat_length. exact Hi. }
      exists bufs'. eexists. split; [exact Hset|].
      apply setitem_inv in Hset. destruct Hset as (_ & Hnth & _).
      split; [exact Hnth|]. split; [reflexivity|].
      intros c y x Hlt. cbn [at3].
      rewrite bidx_in_range by lia. ring.
    + apply fits_spec. auto.
    + apply fits_spec. unfold BUFFER_SIZE. tauto.
    + apply fits_spec. unfold BUFFER_SIZE. tauto.
  - intros Hnot. rewrite iadd_raise; [reflexivity|].
    cbn [dim0 dim1 dim2 zeros3 scale].
    destruct (fits BUFFER_SIZE orig_h) eqn:F1;
      [|rewrite andb_false_r; reflexivity].
    destruct (fits BUFFER_SIZE orig_w) eqn:F2;
      [|rewrite andb_false_r; reflexivity].
    apply fits_spec in F1, F2. unfold BUFFER_SIZE in F1, F2. tauto.
Qed.

(** ** Computations with events *)

Lemma io_bind_lift {A B} (r : result A) (k : A -> io B) :
  io_bind (lift r) k = match r with
                       | Ok a => k a
                       | Raise e => ([], Raise e)
                       end.
Proof. destruct r as [a|e]; cbn; [destruct (k a)|]; reflexivity. Qed.

Lemma io_bind_emit {B} (ev : event) (k : unit -> io B) :
  io_bind (emit ev) k = (ev :: trace (k tt), outcome (k tt)).
Proof. cbn. destruct (k tt); reflexivity. Qed.

Lemma io_bind_ok {A B} (m : io A) (k : A -> io B) (t : list event) (b : B) :
  io_bind m k = (t, Ok b) ->
  exists t1 a t2, m = (t1, Ok a) /\ k a = (t2, Ok b) /\ t = t1 ++ t2.
Proof.
  destruct m as (t1, [a|e]); cbn; [|discriminate].
  destruct (k a) as (t2, r) eqn:E. intros H. injection H as <- ->.
  exists t1, a, t2. auto.
Qed.

Lemma io_bind_raise {A B} (m : io A) (k : A -> io B) (e : exn) :
  outcome m = Raise e -> io_bind m k = (trace m, Raise e).
Proof. destruct m as (t, r). cbn. intros ->. reflexivity. Qed.

Lemma io_bind_trace {A B} (Q : event -> Prop) (m : io A) (k : A -> io B) :
  Forall Q (trace m) -> (forall a, Forall Q (trace (k a))) ->
  Forall Q (trace (io_bind m k)).
Proof.
  destruct m as (t, [a|e]); cbn; intros Hm Hk; [|exact Hm].
  specialize (Hk a). destruct (k a) as (t', r). cbn in *.
  apply Forall_app. auto.
Qed.

Lemma lift_trace {A} (Q : event -> Prop) (r : result A) :
  Forall Q (trace (lift r)).
Proof. constructor. Qed.

Lemma for_each_trace {X S} (Q : event -> Prop) (body : X -> S -> io S) :
  (forall x s, Forall Q (trace (body x s))) ->
  forall l s, Forall Q (trace (for_each body l s)).
Proof.
  intros Hbody l. induction l as [|x r IH]; intros s; cbn [for_each].
  - constructor.
  - apply io_bind_trace; auto.
Qed.

Lemma for_each_cons_ok {X S} (body : X -> S -> io S) (x : X) (r : list X)
      (s s' : S) (t : list event) :
  for_each body (x :: r) s = (t, Ok s') ->
  exists t1 s1 t2, body x s = (t1, Ok s1) /\
                   for_each body r s1 = (t2, Ok s') /\ t = t1 ++ t2.
Proof. cbn [for_each]. apply io_bind_ok. Qed.

(** ** Configuration check *)

Lemma post_images_bad (cfg : config) (b : batch) :
  n_input_post_images cfg <> 0%Z -> n_input_post_images cfg <> 1%Z ->
  n_input_post_images cfg <> 2%Z ->
  post_images cfg b = Raise AssertionError.
Proof.
  intros H0 H1 H2. unfold post_images.
  apply Z.eqb_neq in H0, H1, H2. rewrite H0, H1, H2. reflexivity.
Qed.

Lemma process_batch_bad_config
      (model : tensor4 -> option tensor4 -> option tensor4 -> tensor4)
      (sigmoid : Q -> Q) (cfg : config) (out_root : string)
      (flags_h flags_v : list bool) (weights : list Q)
      (b0 : batch) (rest : list batch) :
  n_input_post_images cfg <> 0%Z -> n_input_post_images cfg <> 1%Z ->
  n_input_post_images cfg <> 2%Z ->
  process_batch model sigmoid cfg out_root flags_h flags_v weights
                (b0 :: rest) tt
  = ([], Raise AssertionError).
Proof.
  intros H0 H1 H2. unfold process_batch.
  rewrite io_bind_lift. cbn [getitem nth_error].
  unfold enumerate. cbn [List.length seq combine for_each].
  unfold process_variant at 1.
  rewrite io_bind_lift, (@post_images_bad cfg b0 H0 H1 H2). reflexivity.
Qed.

Lemma min_len_pos {A} (l : list A) (r : list (list A)) :
  Forall (fun dl => dl <> []) (l :: r) -> min_len (l :: r) <> 0.
Proof.
  intros H. apply Forall_cons_iff in H. destruct H as (Hl & Hr).
  cbn [min_len]. induction r as [|x r IH]; cbn [fold_right].
  - destruct l; [congruence|cbn; lia].
  - apply Forall_cons_iff in Hr. destruct Hr as (Hx & Hr).
    specialize (IH Hr). destruct x; [congruence|]. cbn [List.length]. lia.
Qed.

Lemma min_len_le {A} (l : list A) (r : list (list A)) :
  forall x, In x (l :: r) -> min_len (l :: r) <= List.length x.
Proof.
  cbn [min_len]. induction r as [|y r IH]; intros x Hin; cbn [fold_right].
  - destruct Hin as [->|[]]. apply Nat.le_refl.
  - destruct Hin as [->|[->|Hin]].
    + etransitivity; [apply Nat.le_min_r|]. apply IH. left. reflexivity.
    + apply Nat.le_min_l.
    + etransitivity; [apply Nat.le_min_r|]. apply IH. right. exact Hin.
Qed.

Lemma min_len_zero {A} (ls : list (list A)) :
  In [] ls -> min_len ls = 0.
Proof.
  destruct ls as [|l r]; [contradiction|]. intros Hin.
  apply min_len_le in Hin. cbn [List.length] in Hin. lia.
Qed.

Lemma zip_star_first {A} (l : list A) (r : list (list A)) :
  Forall (fun dl => dl <> []) (l :: r) ->
  exists b0 rest more, zip_star (l :: r) = (b0 :: rest) :: more.
Proof.
  intros H. pose proof (min_len_pos H) as Hm.
  unfold zip_star. destruct (min_len (l :: r)) as [|m]; [congruence|].
  cbn [seq map]. apply Forall_cons_iff in H. destruct H as (Hl & _).
  destruct l as [|b0 l']; [congruence|].
  cbn [column flat_map nth_error app]. eauto.
Qed.

(** C7 (as the code has it).  The post-image count is checked inside the
    batch loop, at the first variant of each batch.  With a count outside
    {0, 1, 2}: when every dataloader yields at least one batch the run
    raises AssertionError at the first variant of the first batch, before
    any forward pass, directory of a sample or raster is produced (only
    the output root and the meta file have been written); when a
    dataloader yields no batch the check is never reached and the run
    ends normally. *)
Theorem invalid_post_count_aborts_first_batch
        (model : tensor4 -> option tensor4 -> option tensor4 -> tensor4)
        (sigmoid : Q -> Q)
        (gtd : config -> bool -> bool -> bool -> list batch)
        (cfg : config) (a : args) (dls : list (list batch))
        (flags_h flags_v : list bool) (weights : list Q) :
  n_input_post_images cfg <> 0%Z -> n_input_post_images cfg <> 1%Z ->
  n_input_post_images cfg <> 2%Z ->
  prepare_test_dataloaders gtd cfg a = (dls, flags_h, flags_v, weights) ->
  (Forall (fun dl => dl <> []) dls ->
   main model sigmoid gtd cfg a
   = ([Makedirs (out_root_of a);
       DumpMeta (OsPath.join (out_root_of a) "meta.json")],
      Raise AssertionError)) /\
  (In [] dls ->
   main model sigmoid gtd cfg a
   = ([Makedirs (out_root_of a);
       DumpMeta (OsPath.join (out_root_of a) "meta.json")],
      Ok tt)).
Proof.
  intros H0 H1 H2 Hprep.
  pose proof (@prepared_weights gtd cfg a dls flags_h flags_v weights Hprep)
    as (_ & _ & Hlen & _ & _ & Hpos).
  unfold main. rewrite Hprep. rewrite !io_bind_emit. unfold batch_loop.
  split.
  - intros Hall. destruct dls as [|l r]; [cbn in Hlen; lia|].
    destruct (zip_star_first Hall) as (b0 & rest & more & ->).
    cbn [for_each]. rewrite (@process_batch_bad_config model sigmoid cfg (out_root_of a)
              flags_h flags_v weights b0 rest H0 H1 H2).
    reflexivity.
  - intros Hin. unfold zip_star. rewrite (@min_len_zero _ dls Hin). reflexivity.
Qed.

(** ** Channel count of the model's map *)

Lemma rectify_dim0 (cfg : config) (flags_h flags_v : list bool)
      (dataloader_idx i : nat) (images : tensor4) (pa pb : option tensor4)
      (orig_h orig_w : nat) (pred r : ndarray3 Q) :
  rectify cfg flags_h flags_v dataloader_idx i images pa pb orig_h orig_w pred
  = Ok r ->
  dim0 r = dim0 pred.
Proof.
  intros H. pose proof H as Hinv. apply rectify_inv in Hinv.
  destruct Hinv as (image & vflip & hflip & _ & _ & E1 & E2 & E3 & _).
  destruct (@rectify_entries cfg flags_h flags_v dataloader_idx i images pa pb
              orig_h orig_w pred r image vflip hflip H E1 E2 E3) as (Hs & _).
  unfold shape3 in Hs. congruence.
Qed.

Lemma accumulate_channel_mismatch (weights : list Q) (dataloader_idx i : nat)
      (bufs : list (ndarray3 Q)) (r : ndarray3 Q) (n_classes : nat) :
  (forall acc, nth_error bufs i = Some acc -> dim0 acc = n_classes) ->
  dim0 r <> n_classes -> dim0 r <> 1 ->
  exists e,
    accumulate weights dataloader_idx i bufs r = Raise e /\
    (i < List.length bufs -> dataloader_idx < List.length weights ->
     e = ValueError).
Proof.
  intros Hbuf Hne H1. unfold accumulate, getitem.
  destruct (nth_error bufs i) as [acc|] eqn:Eacc.
  - destruct (nth_error weights dataloader_idx) as [w|] eqn:Ew.
    + cbn [rbind]. rewrite iadd_raise.
      * exists ValueError. auto.
      * cbn [dim0 scale].
        replace (fits (dim0 acc) (dim0 r)) with false; [reflexivity|].
        symmetry. apply not_true_is_false. rewrite fits_spec.
        rewrite (Hbuf acc eq_refl). tauto.
    + exists IndexError. split; [reflexivity|]. intros _ Hlt.
      apply nth_error_None in Ew. lia.
  - exists IndexError. split; [reflexivity|]. intros Hlt _.
    apply nth_error_None in Eacc. lia.
Qed.

(** C8 (as the code has it).  No step checks the channel count of the
    model's output: once the post-image count has been accepted, the
    forward pass runs and its maps go to the sample loop, whatever their
    channel count.  A mismatch surfaces in the sample loop only: if the
    map of a sample has neither as many channels as there are classes nor
    exactly one, processing the sample raises before anything is emitted,
    and what raises is the in-place addition into the buffer, a
    ValueError, whenever the steps before it returned. *)
Theorem channel_mismatch_surfaces_downstream
        (model : tensor4 -> option tensor4 -> option tensor4 -> tensor4)
        (sigmoid : Q -> Q) (cfg : config) (out_root : string)
        (flags_h flags_v : list bool) (weights : list Q) :
  (forall (dataloader_idx : nat) (b : batch) (st : buffers)
          (pa pb : option tensor4),
      post_images cfg b = Ok (pa, pb) ->
      process_variant model sigmoid cfg out_root flags_h flags_v weights
                      (dataloader_idx, b) st
      = io_bind (emit (Forward dataloader_idx)) (fun _ =>
          for_each (process_sample cfg out_root flags_h flags_v weights
                      dataloader_idx (image b) pa pb
                      (map (map3 sigmoid) (model (image b) pa pb)) b)
                   (seq 0 (List.length (image b)))
                   {| output_paths := output_paths st;
                      preds_averaged := preds_averaged st;
                      batch_pre_paths := pre_path b |})) /\
  (forall (dataloader_idx i : nat) (images : tensor4)
          (pa pb : option tensor4) (batch_preds : tensor4) (b : batch)
          (st : buffers) (pred : ndarray3 Q),
      nth_error batch_preds i = Some pred ->
      (forall acc, nth_error (preds_averaged st) i = Some acc ->
                   dim0 acc = List.length (flatten_classes cfg)) ->
      dim0 pred <> List.length (flatten_classes cfg) ->
      dim0 pred <> 1 ->
      (exists e,
          process_sample cfg out_root flags_h flags_v weights dataloader_idx
                         images pa pb batch_preds b i st
          = ([], Raise e)) /\
      (forall orig_h orig_w r,
          rectify cfg flags_h flags_v dataloader_idx i images pa pb
                  orig_h orig_w pred = Ok r ->
          i < List.length (preds_averaged st) ->
          dataloader_idx < List.length weights ->
          accumulate weights dataloader_idx i (preds_averaged st) r
          = Raise ValueError)).
Proof.
  split.
  - intros dataloader_idx b st pa pb Hpost. unfold process_variant.
    rewrite io_bind_lift, Hpost. reflexivity.
  - intros dataloader_idx i images pa pb batch_preds b st pred
           Hpred Hbuf Hne H1.
    split.
    + unfold process_sample.
      rewrite io_bind_lift. unfold getitem at 1. rewrite Hpred.
      rewrite io_bind_lift.
      destruct (getitem (pre_path b) i) as [pre|e]; [|eauto].
      rewrite io_bind_lift.
      destruct (getitem (original_height b) i) as [orig_h|e]; [|eauto].
      rewrite io_bind_lift.
      destruct (getitem (original_width b) i) as [orig_w|e]; [|eauto].
      rewrite io_bind_lift.
      destruct (rectify cfg flags_h flags_v dataloader_idx i images pa pb
                        orig_h orig_w pred) as [r|e] eqn:Hrect; [|eauto].
      apply rectify_dim0 in Hrect.
      rewrite io_bind_lift.
      assert (Hne' : dim0 r <> List.length (flatten_classes cfg))
        by congruence.
      assert (H1' : dim0 r <> 1) by congruence.
      destruct (@accumulate_channel_mismatch weights dataloader_idx i
                  (preds_averaged st) r (List.length (flatten_classes cfg))
                  Hbuf Hne' H1') as (e & -> & _).
      eauto.
    + intros orig_h orig_w r Hrect Hi Hw.
      apply rectify_dim0 in Hrect.
      assert (Hne' : dim0 r <> List.length (flatten_classes cfg))
        by congruence.
      assert (H1' : dim0 r <> 1) by congruence.
      destruct (@accumulate_channel_mismatch weights dataloader_idx i
                  (preds_averaged st) r (List.length (flatten_classes cfg))
                  Hbuf Hne' H1') as (e & He & Hv).
      rewrite He, (Hv Hi Hw). reflexivity.
Qed.

(** ** Output identity across variants *)

Lemma option_string_eqb_spec (stored : option string) (p : string) :
  option_string_eqb stored p = true <-> stored = Some p.
Proof.
  destruct stored as [s|]; cbn; [|split; discriminate].
  rewrite String.eqb_eq. split; congruence.
Qed.

Lemma check_output_path_inv (dataloader_idx i : nat)
      (paths paths' : list (option string)) (p : string) :
  check_output_path dataloader_idx i paths p = Ok paths' ->
  List.length paths' = List.length paths /\
  nth_error paths' i = Some (Some p) /\
  (forall j, j <> i -> nth_error paths' j = nth_error paths j) /\
  (dataloader_idx <> 0 -> paths' = paths).
Proof.
  unfold check_output_path. destruct (dataloader_idx =? 0) eqn:E.
  - apply Nat.eqb_eq in E. intros H. apply setitem_inv in H.
    destruct H as (Hlen & Hi & Hother). repeat split; auto. lia.
  - intros H. apply rbind_ok in H. destruct H as (stored & Hget & H).
    apply rbind_ok in H. destruct H as ([] & Hassert & H).
    injection H as <-. apply getitem_ok in Hget.
    apply py_assert_ok, option_string_eqb_spec in Hassert. subst stored.
    repeat split; auto.
Qed.

Lemma check_output_path_later (dataloader_idx i : nat)
      (paths : list (option string)) (stored : option string) (p : string) :
  dataloader_idx <> 0 -> nth_error paths i = Some stored ->
  (stored = Some p -> check_output_path dataloader_idx i paths p = Ok paths) /\
  (stored <> Some p ->
   check_output_path dataloader_idx i paths p = Raise AssertionError).
Proof.
  intros Hidx Hnth. unfold check_output_path, getitem.
  apply Nat.eqb_neq in Hidx. rewrite Hidx, Hnth. cbn [rbind].
  split; intros H.
  - rewrite (proj2 (option_string_eqb_spec stored p) H). reflexivity.
  - destruct (option_string_eqb stored p) eqn:E; [|reflexivity].
    apply option_string_eqb_spec in E. contradiction.
Qed.

Section Loops.

Variable model : tensor4 -> option tensor4 -> option tensor4 -> tensor4.
Variable sigmoid : Q -> Q.
Variable cfg : config.
Variable out_root : string.
Variables flags_h flags_v : list bool.
Variable weights : list Q.

Let sample := process_sample cfg out_root flags_h flags_v weights.
Let variant :=
  process_variant model sigmoid cfg out_root flags_h flags_v weights.

Lemma process_sample_trace (dataloader_idx : nat) (images : tensor4)
      (pa pb : option tensor4) (batch_preds : tensor4) (b : batch)
      (i : nat) (st : buffers) :
  Forall (fun e => ~ is_save e)
         (trace (sample dataloader_idx images pa pb batch_preds b i st)).
Proof.
  unfold sample, process_sample.
  repeat (apply io_bind_trace; [try apply lift_trace|intros ?]).
  - constructor; [cbn; tauto|constructor].
  - constructor.
Qed.

Lemma process_variant_trace (ib : nat * batch) (st : buffers) :
  Forall (fun e => ~ is_save e) (trace (variant ib st)).
Proof.
  unfold variant, process_variant. destruct ib as (dataloader_idx, b).
  apply io_bind_trace; [apply lift_trace|]. intros (pa, pb).
  apply io_bind_trace; [constructor; [cbn; tauto|constructor]|].
  intros _. apply for_each_trace. intros i s.
  apply process_sample_trace.
Qed.

Lemma process_sample_ok (dataloader_idx : nat) (images : tensor4)
      (pa pb : option tensor4) (batch_preds : tensor4) (b : batch)
      (i : nat) (st st' : buffers) (t : list event) :
  sample dataloader_idx images pa pb batch_preds b i st = (t, Ok st') ->
  List.length (output_paths st') = List.length (output_paths st) /\
  recorded out_root b (output_paths st') i /\
  (forall j, j <> i ->
             nth_error (output_paths st') j = nth_error (output_paths st) j) /\
  (dataloader_idx <> 0 -> output_paths st' = output_paths st).
Proof.
  unfold sample, process_sample. intros H.
  rewrite io_bind_lift in H.
  destruct (getitem batch_preds i) as [pred|]; [|discriminate].
  rewrite io_bind_lift in H.
  destruct (getitem (pre_path b) i) as [pre|] eqn:Hpre; [|discriminate].
  rewrite io_bind_lift in H.
  destruct (getitem (original_height b) i) as [orig_h|]; [|discriminate].
  rewrite io_bind_lift in H.
  destruct (getitem (original_width b) i) as [orig_w|]; [|discriminate].
  rewrite io_bind_lift in H.
  destruct (rectify cfg flags_h flags_v dataloader_idx i images pa pb
                    orig_h orig_w pred) as [r|]; [|discriminate].
  rewrite io_bind_lift in H.
  destruct (accumulate weights dataloader_idx i (preds_averaged st) r)
    as [averaged|]; [|discriminate].
  rewrite io_bind_emit, io_bind_lift in H.
  destruct (check_output_path dataloader_idx i (output_paths st)
                              (output_path_of out_root pre))
    as [paths|] eqn:Hcheck; [|discriminate].
  cbn in H. injection H as _ <-. cbn [output_paths].
  apply check_output_path_inv in Hcheck.
  destruct Hcheck as (Hlen & Hi & Hother & Hsame).
  apply getitem_ok in Hpre.
  repeat split; try assumption. exists pre. auto.
Qed.

(** The sample loop of one variant, over the indices [k], ..., [k+n-1]. *)
Lemma sample_loop_ok (dataloader_idx : nat) (images : tensor4)
      (pa pb : option tensor4) (batch_preds : tensor4) (b : batch) :
  forall (n k : nat) (st st' : buffers) (t : list event),
    for_each (sample dataloader_idx images pa pb batch_preds b)
             (seq k n) st = (t, Ok st') ->
    List.length (output_paths st') = List.length (output_paths st) /\
    (forall i, k <= i < k + n -> recorded out_root b (output_paths st') i) /\
    (forall j, j < k ->
               nth_error (output_paths st') j
               = nth_error (output_paths st) j) /\
    (dataloader_idx <> 0 -> output_paths st' = output_paths st).
Proof.
  induction n as [|n IH]; intros k st st' t H.
  - cbn in H. injection H as _ <-. repeat split; auto. intros i Hi. lia.
  - cbn [seq] in H. apply for_each_cons_ok in H.
    destruct H as (t1 & s1 & t2 & Hstep & Hrest & _).
    apply process_sample_ok in Hstep.
    destruct Hstep as (L1 & R1 & O1 & S1).
    apply IH in Hrest. destruct Hrest as (L2 & R2 & O2 & S2).
    split; [congruence|]. split; [|split].
    + intros i Hi. destruct (Nat.eq_dec i k) as [->|Hne].
      * destruct R1 as (p & Hp & Hnth). exists p. split; [exact Hp|].
        rewrite O2 by lia. exact Hnth.
      * apply R2. lia.
    + intros j Hj. rewrite O2 by lia. apply O1. lia.
    + intros Hidx. rewrite (S2 Hidx). apply S1. exact Hidx.
Qed.

Lemma process_variant_ok (dataloader_idx : nat) (b : batch)
      (st st' : buffers) (t : list event) :
  variant (dataloader_idx, b) st = (t, Ok st') ->
  List.length (output_paths st') = List.length (output_paths st) /\
  (forall i, i < List.length (image b) ->
             recorded out_root b (output_paths st') i) /\
  (dataloader_idx <> 0 -> output_paths st' = output_paths st).
Proof.
  unfold variant, process_variant. intros H.
  rewrite io_bind_lift in H.
  destruct (post_images cfg b) as [(pa, pb)|]; [|discriminate].
  rewrite io_bind_emit in H.
  destruct (for_each _ _ _) as (t', [s|]) eqn:Hloop in H;
    cbn in H; [|discriminate].
  injection H as _ <-.
  apply sample_loop_ok in Hloop. cbn [output_paths] in Hloop.
  destruct Hloop as (L & R & _ & S). repeat split; auto.
  intros i Hi. apply R. lia.
Qed.

(** The later variants [k], [k+1], ... (k different from 0) leave the
    stored paths alone and find their own derived paths in them. *)
Lemma later_variants_ok :
  forall (bs : list batch) (k : nat) (st st' : buffers) (t : list event),
    k <> 0 ->
    for_each variant (combine (seq k (List.length bs)) bs) st
    = (t, Ok st') ->
    output_paths st' = output_paths st /\
    forall j b, nth_error bs j = Some b ->
      forall i, i < List.length (image b) ->
                recorded out_root b (output_paths st) i.
Proof.
  induction bs as [|b bs IH]; intros k st st' t Hk H.
  - cbn in H. injection H as _ <-. split; [reflexivity|].
    intros [|j] b'; discriminate.
  - cbn [List.length seq combine] in H. apply for_each_cons_ok in H.
    destruct H as (t1 & s1 & t2 & Hstep & Hrest & _).
    apply process_variant_ok in Hstep. destruct Hstep as (_ & R1 & S1).
    specialize (S1 Hk).
    apply IH in Hrest; [|lia]. destruct Hrest as (S2 & R2).
    split; [congruence|].
    intros [|j] b' Hb' i Hi; cbn [nth_error] in Hb'.
    + injection Hb' as <-. rewrite <- S1. apply R1. exact Hi.
    + rewrite <- S1. eapply R2; eassumption.
Qed.

(** When the variant loop of a batch completes, every variant's derived
    path of every sample is the stored one, and the stored one is the
    first variant's. *)
Lemma variant_loop_ok (b0 : batch) (rest : list batch)
      (st st' : buffers) (t : list event) :
  for_each variant (enumerate (b0 :: rest)) st = (t, Ok st') ->
  List.length (output_paths st') = List.length (output_paths st) /\
  forall idx b, nth_error (b0 :: rest) idx = Some b ->
    forall i, i < List.length (image b) ->
              recorded out_root b (output_paths st') i.
Proof.
  unfold enumerate. cbn [List.length seq combine]. intros H.
  apply for_each_cons_ok in H.
  destruct H as (t1 & s1 & t2 & Hstep & Hrest & _).
  apply process_variant_ok in Hstep. destruct Hstep as (L1 & R1 & _).
  apply later_variants_ok in Hrest; [|lia]. destruct Hrest as (S2 & R2).
  split; [congruence|].
  intros [|idx] b Hb i Hi; cbn [nth_error] in Hb; rewrite S2.
  - injection Hb as <-. apply R1. exact Hi.
  - eapply R2; eassumption.
Qed.

End Loops.

(** C5.  The output path of a sample is the output root joined with the
    AOI directory name and the file name of its pre-image path.  A
    variant after the first compares the path it derives with the one
    stored for the same batch index: equal paths leave the stored list
    as it is, a different stored path raises AssertionError.  The variant
    loop of a batch hands nothing to the raster writer; when it raises,
    the batch raises the same exception having written no raster, and so
    does the loop over the batches, which stops there.  When it
    completes, every variant has derived, for every sample of its batch,
    the path the first variant derived at the same index; so a variant
    that derives another path than the first makes the variant loop
    raise. *)
Theorem output_identity_is_checked
        (model : tensor4 -> option tensor4 -> option tensor4 -> tensor4)
        (sigmoid : Q -> Q) (cfg : config) (out_root : string)
        (flags_h flags_v : list bool) (weights : list Q)
        (b0 : batch) (rest : list batch) :
  let batches := b0 :: rest in
  let variants :=
    for_each (process_variant model sigmoid cfg out_root
                              flags_h flags_v weights)
             (enumerate batches)
             (init_buffers cfg (List.length (image b0))) in
  (forall pre,
      output_path_of out_root pre
      = OsPath.join
          (OsPath.join out_root
             (OsPath.basename (OsPath.dirname (OsPath.dirname pre))))
          (OsPath.basename pre)) /\
  (forall dataloader_idx i paths stored p,
      dataloader_idx <> 0 -> nth_error paths i = Some stored ->
      (stored = Some p ->
       check_output_path dataloader_idx i paths p = Ok paths) /\
      (stored <> Some p ->
       check_output_path dataloader_idx i paths p = Raise AssertionError)) /\
  Forall (fun e => ~ is_save e) (trace variants) /\
  (forall e, outcome variants = Raise e ->
     process_batch model sigmoid cfg out_root flags_h flags_v weights
                   batches tt
     = (trace variants, Raise e) /\
     forall more,
       for_each (process_batch model sigmoid cfg out_root
                               flags_h flags_v weights)
                (batches :: more) tt
       = (trace variants, Raise e)) /\
  (forall st, outcome variants = Ok st ->
     forall dataloader_idx b i,
       nth_error batches dataloader_idx = Some b ->
       i < List.length (image b) ->
       exists p p0,
         nth_error (pre_path b) i = Some p /\
         nth_error (pre_path b0) i = Some p0 /\
         output_path_of out_root p = output_path_of out_root p0 /\
         nth_error (output_paths st) i
         = Some (Some (output_path_of out_root p0))) /\
  (forall dataloader_idx b i p p0,
      nth_error batches dataloader_idx = Some b ->
      i < List.length (image b) ->
      nth_error (pre_path b) i = Some p ->
      nth_error (pre_path b0) i = Some p0 ->
      output_path_of out_root p <> output_path_of out_root p0 ->
      exists e, outcome variants = Raise e).
Proof.
  intros batches variants.
  assert (Hok : forall st, outcome variants = Ok st ->
            forall dataloader_idx b i,
              nth_error batches dataloader_idx = Some b ->
              i < List.length (image b) ->
              exists p p0,
                nth_error (pre_path b) i = Some p /\
                nth_error (pre_path b0) i = Some p0 /\
                output_path_of out_root p = output_path_of out_root p0 /\
                nth_error (output_paths st) i
                = Some (Some (output_path_of out_root p0))).
  { intros st Hst dataloader_idx b i Hb Hi.
    destruct variants as (t, r) eqn:E. cbn in Hst. subst r.
    apply variant_loop_ok in E. destruct E as (Hlen & Hrec).
    destruct (Hrec dataloader_idx b Hb i Hi) as (p & Hp & Hnth).
    assert (Hi0 : i < List.length (image b0)).
    { cbn [init_buffers output_paths] in Hlen.
      rewrite repeat_length in Hlen. rewrite <- Hlen.
      apply nth_error_Some. congruence. }
    destruct (Hrec 0 b0 eq_refl i Hi0) as (p0 & Hp0 & Hnth0).
    exists p, p0. repeat split; try assumption. congruence. }
  split; [reflexivity|].
  split; [intros; apply check_output_path_later; assumption|].
  split.
  { apply for_each_trace. intros ib s. apply process_variant_trace. }
  split.
  { intros e He.
    assert (Hb : process_batch model sigmoid cfg out_root flags_h flags_v
                               weights batches tt
                 = (trace variants, Raise e)).
    { unfold process_batch. rewrite io_bind_lift. cbn [getitem nth_error batches].
      apply io_bind_raise. exact He. }
    split; [exact Hb|].
    intros more. cbn [for_each]. rewrite Hb. reflexivity. }
  split; [exact Hok|].
  intros dataloader_idx b i p p0 Hb Hi Hp Hp0 Hne.
  destruct (outcome variants) as [st|e] eqn:E; [|eauto].
  exfalso. destruct (Hok st eq_refl dataloader_idx b i Hb Hi)
    as (q & q0 & Hq & Hq0 & Heq & _).
  apply Hne. congruence.
Qed.

(** * The properties at concrete inputs *)

Example crop_grid :
  rbind (crop_center Ex.grid (2, 2)) (fun r => Ok (to_list3 r))
  = Ok [[[5; 6]; [9; 10]]].
Proof. reflexivity. Qed.

Example crop_odd_margin :
  rbind (crop_center Ex.grid (1, 3)) (fun r => Ok (to_list3 r))
  = Ok [[[1]; [5]; [9]]].
Proof. reflexivity. Qed.

Example basename_ex : OsPath.basename Ex.tile_path = "tile_7.tif"%string.
Proof. reflexivity. Qed.

Example aoi_ex :
  OsPath.basename (OsPath.dirname (OsPath.dirname Ex.tile_path))
  = "Germany"%string.
Proof. reflexivity. Qed.

Example out_root_ex :
  out_root_of Ex.args_plain = "/wdata/preds/exp_00007"%string.
Proof. reflexivity. Qed.

Example output_path_ex :
  output_path_of "/wdata/preds/exp_00007" Ex.tile_path
  = "/wdata/preds/exp_00007/Germany/tile_7.tif"%string.
Proof. reflexivity. Qed.

Example weights_three_variants :
  snd (prepare_test_dataloaders Ex.no_tile Ex.cfg_foundation
         {| exp_id := 1; artifact_dir := "/wdata"; val := false;
            tta_hflip := true; tta_vflip := true |})
  = [1 # 3; 1 # 3; 1 # 3]%Q.
Proof. reflexivity. Qed.

Example quantize_half : astype_uint8 ((1 # 2) * 255) = 127%Z.
Proof. reflexivity. Qed.

Example quantize_one : astype_uint8 (1 * 255) = 255%Z.
Proof. reflexivity. Qed.

Example unflip_both :
  to_list3 (unflip true true
              (mk3 1 2 2 (fun _ y x => inject_Z (Z.of_nat (2 * y + x)))))
  = [[[3; 2]; [1; 0]]]%Q.
Proof. reflexivity. Qed.

(** C1 at the 4 x 4 grid: the 2 x 2 crop starts at row 1, column 1, and a
    crop wider than the grid raises. *)
Lemma crop_center_correct_witness :
  (exists r,
      crop_center Ex.grid (2, 2) = Ok r /\
      shape3 r = (1, 2, 2) /\
      forall c y x, y < 2 -> x < 2 ->
        (4 - 2) / 2 + y < 4 /\ (4 - 2) / 2 + x < 4 /\
        at3 r c y x = at3 Ex.grid c ((4 - 2) / 2 + y) ((4 - 2) / 2 + x)) /\
  crop_center Ex.grid (5, 2) = Raise AssertionError.
Proof.
  split.
  - apply (proj1 (crop_center_correct Ex.grid 2 2)); cbn; lia.
  - apply (proj2 (crop_center_correct Ex.grid 2 5)). right. cbn. lia.
Defined.



(** C3 at a 2 x 2 sample: post-image A is black at (0, 0) only, B on the
    whole row 0; the flood channel is zeroed at (0, 0) only, the building
    channel nowhere. *)
Lemma post_mask_two_images_witness :
  exists r,
    mask_post_nodata Ex.cfg_two_posts 0 2 2
                     (Some [Ex.hole00]) (Some [Ex.hole_row0])
                     (Ex.const3 2 2 2 (1 # 2)) = Ok r /\
    at3 r 1 0 0 = 0%Q /\
    at3 r 1 0 1 = (1 # 2)%Q /\
    at3 r 0 0 0 = (1 # 2)%Q.
Proof.
  destruct (@post_mask_two_images
              Ex.cfg_two_posts Ex.small_batch [Ex.hole00] [Ex.hole_row0]
              0 2 2 Ex.hole00 Ex.hole_row0 (Ex.const3 2 2 2 (1 # 2))
              eq_refl eq_refl eq_refl eq_refl eq_refl
              eq_refl eq_refl eq_refl eq_refl (Nat.le_refl 2))
    as (_ & mask & r & _ & _ & Hmask & Hr & _ & Hentries).
  exists r. split; [exact Hr|].
  cbn [dim0 dim1 dim2 Ex.const3] in Hmask, Hentries.
  split; [|split].
  - apply (Hentries 1 0 0); [lia|lia|lia|]. split.
    + exists "flood"%string. split; [reflexivity|]. cbn. tauto.
    + apply Hmask; [lia|lia|]. split; reflexivity.
  - apply (Hentries 1 0 1); [lia|lia|lia|].
    intros (_ & Hm). apply Hmask in Hm; [|lia|lia].
    destruct Hm as (Ha & _). discriminate Ha.
  - apply (Hentries 0 0 0); [lia|lia|lia|].
    intros ((class_name & Hnth & Hin) & _).
    cbn in Hnth. injection Hnth as <-.
    cbn in Hin. repeat (destruct Hin as [Hin|Hin]; [discriminate Hin|]).
    exact Hin.
Defined.

(** C4 at a vertically flipped 2 x 2 variant whose pre-event image is
    black at (0, 0): the rectified map is zero at (1, 0) in both
    channels; and maps that are zero at a pixel accumulate to zero
    there. *)
Lemma pre_nodata_pixels_witness :
  (exists r,
      rectify Ex.cfg_foundation [false; false] [false; true] 1 0
              [Ex.hole00] None None 2 2 (Ex.const3 2 2 2 (1 # 2)) = Ok r /\
      shape3 r = (2, 2, 2) /\
      at3 r 0 1 0 = 0%Q /\ at3 r 1 1 0 = 0%Q) /\
  (exists bufs' acc,
      accumulate_from [1 # 2; 1 # 2]%Q 0 0
                      [Ex.const3 2 1300 1300 0; Ex.const3 2 1300 1300 0]
                      (fresh_buffer Ex.cfg_foundation 1) = Ok bufs' /\
      nth_error bufs' 0 = Some acc /\
      (at3 acc 0 5 5 == 0)%Q /\ (at3 acc 1 5 5 == 0)%Q).
Proof.
  pose proof (@pre_nodata_pixels_are_zero Ex.cfg_foundation
                [false; false] [false; true] [1 # 2; 1 # 2]%Q) as (HA & HB).
  split.
  - destruct (rectify Ex.cfg_foundation [false; false] [false; true] 1 0
                      [Ex.hole00] None None 2 2 (Ex.const3 2 2 2 (1 # 2)))
      as [r|e] eqn:Hrect; [|vm_compute in Hrect; discriminate Hrect].
    destruct (HA 1 0 [Ex.hole00] None None 2 2 (Ex.const3 2 2 2 (1 # 2)) r
                 Ex.hole00 true false Hrect eq_refl eq_refl eq_refl)
      as (Hshape & Hzero).
    exists r. split; [reflexivity|]. split; [exact Hshape|].
    split.
    + apply (Hzero 0 1 0); [cbn; lia|lia|lia|reflexivity].
    + apply (Hzero 1 1 0); [cbn; lia|lia|lia|reflexivity].
  - destruct (accumulate_from [1 # 2; 1 # 2]%Q 0 0
                [Ex.const3 2 1300 1300 0; Ex.const3 2 1300 1300 0]
                (fresh_buffer Ex.cfg_foundation 1))
      as [bufs'|e] eqn:Hrun; [|vm_compute in Hrun; discriminate Hrun].
    destruct (HB 0 1 [Ex.const3 2 1300 1300 0; Ex.const3 2 1300 1300 0]
                 bufs' 5 5) as (acc & Hnth & Hzero);
      [lia|unfold BUFFER_SIZE; lia|unfold BUFFER_SIZE; lia| |exact Hrun|].
    + apply Forall_cons; [|apply Forall_cons; [|apply Forall_nil]];
        (split; [reflexivity|intros c _; reflexivity]).
    + exists bufs', acc. split; [reflexivity|]. split; [exact Hnth|].
      split; apply Hzero; cbn; lia.
Defined.

(** C5 with two variants whose dataloaders disagree on the first sample:
    the variant loop raises. *)
Lemma output_identity_witness :
  exists e,
    outcome
      (for_each (process_variant (Ex.flat_model 2) Ex.hard_sigmoid
                                 Ex.cfg_foundation "/wdata/preds/exp_00007"
                                 [false; true] [false; false]
                                 [1 # 2; 1 # 2]%Q)
                (enumerate [Ex.tile_batch Ex.tile_path;
                            Ex.tile_batch Ex.other_path])
                (init_buffers Ex.cfg_foundation 1))
    = Raise e.
Proof.
  pose proof (@output_identity_is_checked
                (Ex.flat_model 2) Ex.hard_sigmoid Ex.cfg_foundation
                "/wdata/preds/exp_00007" [false; true] [false; false]
                [1 # 2; 1 # 2]%Q (Ex.tile_batch Ex.tile_path)
                [Ex.tile_batch Ex.other_path]) as H.
  cbv zeta in H. destruct H as (_ & _ & _ & _ & _ & Hmismatch).
  apply (Hmismatch 1 (Ex.tile_batch Ex.other_path) 0 Ex.other_path
                   Ex.tile_path eq_refl).
  - cbn. lia.
  - reflexivity.
  - reflexivity.
  - intros E. vm_compute in E. discriminate E.
Defined.

Example mismatched_second_loader :
  for_each (process_variant (Ex.flat_model 2) Ex.hard_sigmoid
                            Ex.cfg_foundation "/wdata/preds/exp_00007"
                            [false; true] [false; false] [1 # 2; 1 # 2]%Q)
           (enumerate [Ex.tile_batch Ex.tile_path;
                       Ex.tile_batch Ex.other_path])
           (init_buffers Ex.cfg_foundation 1)
  = ([Forward 0; Makedirs "/wdata/preds/exp_00007/Germany";
      Forward 1; Makedirs "/wdata/preds/exp_00007/Germany"],
     Raise AssertionError).
Proof. vm_compute. reflexivity. Qed.


(** C7: a post-image count of 3 and dataloaders without batches; the run
    ends normally. *)
Lemma invalid_post_count_unnoticed_without_batches :
  ~ In (n_input_post_images Ex.cfg_three_posts) [0; 1; 2]%Z /\
  main (Ex.flat_model 2) Ex.hard_sigmoid Ex.no_tile Ex.cfg_three_posts
       Ex.args_plain
  = ([Makedirs "/wdata/preds/exp_00007";
      DumpMeta "/wdata/preds/exp_00007/meta.json"], Ok tt).
Proof.
  split; [|reflexivity].
  cbn. intros [H|[H|[H|[]]]]; discriminate H.
Qed.

(** C7 (as the code has it) with a count of 3 and one batch per
    dataloader: the run raises at the first variant of the first batch. *)
Lemma invalid_post_count_witness :
  main (Ex.flat_model 2) Ex.hard_sigmoid Ex.one_tile Ex.cfg_three_posts
       Ex.args_hflip
  = ([Makedirs (out_root_of Ex.args_hflip);
      DumpMeta (OsPath.join (out_root_of Ex.args_hflip) "meta.json")],
     Raise AssertionError).
Proof.
  refine (proj1 (@invalid_post_count_aborts_first_batch
                   (Ex.flat_model 2) Ex.hard_sigmoid Ex.one_tile
                   Ex.cfg_three_posts Ex.args_hflip
                   [[Ex.tile_batch Ex.tile_path]; [Ex.tile_batch Ex.tile_path]]
                   [false; true] [false; false] [1 # 2; 1 # 2]%Q
                   _ _ _ eq_refl) _).
  - discriminate.
  - discriminate.
  - discriminate.
  - apply Forall_cons; [discriminate|].
    apply Forall_cons; [discriminate|]. apply Forall_nil.
Defined.

(** C9: a sample whose original size is 1 x 1300, cropped from a padded
    1312 x 1312 map, is added to the 1300 x 1300 buffer without error. *)
Lemma buffer_addition_broadcasts_a_row :
  exists r bufs',
    crop_center (Ex.const3 2 1312 1312 (1 # 2)) (1300, 1) = Ok r /\
    (dim1 r, dim2 r) = (1, 1300) /\
    (dim1 r, dim2 r) <> (1300, 1300) /\
    accumulate [1%Q] 0 0 (fresh_buffer Ex.cfg_foundation 1) r = Ok bufs'.
Proof.
  eexists. eexists.
  split; [reflexivity|]. split; [reflexivity|].
  split; [discriminate|]. reflexivity.
Qed.

(** C9 (as the code has it) at the same sample, and at a 1299 x 1300 one,
    whose addition raises. *)
Lemma buffer_addition_shapes_witness :
  (exists bufs' acc,
      accumulate [1%Q] 0 0 (fresh_buffer Ex.cfg_foundation 1)
                 (mk3 2 1 1300
                      (fun c y x =>
                         at3 (Ex.const3 2 1312 1312 (1 # 2)) c
                             ((1312 - 1) / 2 + y) ((1312 - 1300) / 2 + x)))
      = Ok bufs' /\
      nth_error bufs' 0 = Some acc /\
      shape3 acc = (2, 1300, 1300)) /\
  accumulate [1%Q] 0 0 (fresh_buffer Ex.cfg_foundation 1)
             (mk3 2 1299 1300
                  (fun c y x =>
                     at3 (Ex.const3 2 1312 1312 (1 # 2)) c
                         ((1312 - 1299) / 2 + y) ((1312 - 1300) / 2 + x)))
  = Raise ValueError.
Proof.
  split.
  - destruct (@buffer_addition_shapes
                Ex.cfg_foundation [1%Q] 0 0 1 1%Q
                (Ex.const3 2 1312 1312 (1 # 2)) _ 1 1300
                (Nat.lt_0_1) eq_refl eq_refl
                (@crop_center_ok _ (Ex.const3 2 1312 1312 (1 # 2)) 1300 1
                   ltac:(cbn; lia) ltac:(cbn; lia)))
      as (_ & Hfits & _).
    destruct Hfits as (bufs' & acc & Hrun & Hnth & Hshape & _); [lia|].
    exists bufs', acc. auto.
  - destruct (@buffer_addition_shapes
                Ex.cfg_foundation [1%Q] 0 0 1 1%Q
                (Ex.const3 2 1312 1312 (1 # 2)) _ 1299 1300
                (Nat.lt_0_1) eq_refl eq_refl
                (@crop_center_ok _ (Ex.const3 2 1312 1312 (1 # 2)) 1300 1299
                   ltac:(cbn; lia) ltac:(cbn; lia)))
      as (_ & _ & Hraise).
    apply Hraise. lia.
Defined.

(** C10 at a 2 x 2 map with a flood class: original size 2 x 2 leaves the
    map unchanged, original size 3 x 3 raises IndexError. *)
Lemma post_mask_no_images_witness :
  (exists r,
      mask_post_nodata Ex.cfg_no_post 0 2 2 None None
                       (Ex.const3 2 2 2 (1 # 2)) = Ok r /\
      same3 r (Ex.const3 2 2 2 (1 # 2))) /\
  mask_post_nodata Ex.cfg_no_post 0 3 3 None None (Ex.const3 2 2 2 (1 # 2))
  = Raise IndexError.
Proof.
  split.
  - destruct (@post_mask_no_images Ex.cfg_no_post Ex.small_batch 0 2 2
                (Ex.const3 2 2 2 (1 # 2)) eq_refl)
      as (_ & _ & _ & _ & _ & Hok & _).
    apply Hok; [reflexivity|reflexivity|cbn; lia].
  - destruct (@post_mask_no_images Ex.cfg_no_post Ex.small_batch 0 3 3
                (Ex.const3 2 2 2 (1 # 2)) eq_refl)
      as (_ & _ & _ & _ & _ & _ & Hraise).
    apply Hraise.
    + exists "flood"%string. split; cbn; tauto.
    + left. cbn. lia.
Defined.

(** C8 (as the code has it) at a three-channel map with two classes. *)
Lemma channel_mismatch_witness :
  (exists e,
      process_sample Ex.cfg_foundation "/wdata/preds/exp_00007"
                     [false] [false] [1%Q] 0 [Ex.const3 3 1300 1300 1]
                     None None [Ex.const3 3 1300 1300 (1 # 2)]
                     (Ex.tile_batch Ex.tile_path) 0
                     (init_buffers Ex.cfg_foundation 1)
      = ([], Raise e)) /\
  accumulate [1%Q] 0 0 (fresh_buffer Ex.cfg_foundation 1)
             (Ex.const3 3 1300 1300 (1 # 2))
  = Raise ValueError.
Proof.
  destruct (@channel_mismatch_surfaces_downstream
              (Ex.flat_model 3) Ex.hard_sigmoid Ex.cfg_foundation
              "/wdata/preds/exp_00007" [false] [false] [1%Q])
    as (_ & Hsample).
  destruct (Hsample 0 0 [Ex.const3 3 1300 1300 1] None None
                    [Ex.const3 3 1300 1300 (1 # 2)]
                    (Ex.tile_batch Ex.tile_path)
                    (init_buffers Ex.cfg_foundation 1)
                    (Ex.const3 3 1300 1300 (1 # 2)) eq_refl)
    as (Hraise & _).
  - intros acc H. cbn in H. injection H as <-. reflexivity.
  - cbn. discriminate.
  - cbn. discriminate.
  - split; [exact Hraise|reflexivity].
Defined.

(** C8: a network with one output channel and two classes; the run ends
    normally. *)
Lemma one_channel_model_is_not_rejected :
  List.length (flatten_classes Ex.cfg_foundation) = 2 /\
  map (fun p => dim0 p)
      (Ex.flat_model 1 (image (Ex.tile_batch Ex.tile_path)) None None) = [1] /\
  outcome (main (Ex.flat_model 1) Ex.hard_sigmoid Ex.one_tile
                Ex.cfg_foundation Ex.args_plain)
  = Ok tt.
Proof.
  split; [reflexivity|]. split; [reflexivity|].
  vm_compute. reflexivity.
Qed.


(** * Further properties of the script *)

(** ** [dump_pred_to_png] *)

Lemma assert_min_ge0_inv (p : ndarray3 Q) :
  assert_min_ge0 p = Ok tt ->
  size3 p <> 0 /\
  forall c y x, c < dim0 p -> y < dim1 p -> x < dim2 p -> (0 <= at3 p c y x)%Q.
Proof.
  unfold assert_min_ge0. destruct (size3 p =? 0) eqn:E; [discriminate|].
  apply Nat.eqb_neq in E. intros H. apply py_assert_ok in H.
  split; [exact E|]. intros c y x Hc Hy Hx. apply Qle_bool_iff.
  rewrite all3_spec in H. apply H; assumption.
Qed.

Lemma assert_max_le1_inv (p : ndarray3 Q) :
  assert_max_le1 p = Ok tt ->
  size3 p <> 0 /\
  forall c y x, c < dim0 p -> y < dim1 p -> x < dim2 p -> (at3 p c y x <= 1)%Q.
Proof.
  unfold assert_max_le1. destruct (size3 p =? 0) eqn:E; [discriminate|].
  apply Nat.eqb_neq in E. intros H. apply py_assert_ok in H.
  split; [exact E|]. intros c y x Hc Hy Hx. apply Qle_bool_iff.
  rewrite all3_spec in H. apply H; assumption.
Qed.

Lemma asserts_pass (p : ndarray3 Q) :
  size3 p <> 0 -> in01 p ->
  assert_min_ge0 p = Ok tt /\ assert_max_le1 p = Ok tt.
Proof.
  intros Hsize Hin. unfold assert_min_ge0, assert_max_le1.
  apply Nat.eqb_neq in Hsize. rewrite Hsize.
  split; apply py_assert_ok, all3_spec; intros c y x Hc Hy Hx;
    apply Qle_bool_iff; apply (Hin c y x Hc Hy Hx).
Qed.

(** The part of the map the preview looks at. *)
Lemma preview_part (pred : ndarray3 Q) :
  let part := if 3 <? dim0 pred then slice0 pred 3 else pred in
  dim0 part = Nat.min (dim0 pred) 3 /\ dim1 part = dim1 pred /\
  dim2 part = dim2 pred /\ at3 part = at3 pred.
Proof.
  cbv zeta. destruct (3 <? dim0 pred) eqn:E.
  - apply Nat.ltb_lt in E. cbn [slice0 dim0 dim1 dim2 at3].
    unfold slice_len. repeat split. lia.
  - apply Nat.ltb_ge in E. repeat split. lia.
Qed.

(** X1.  For a non-empty map whose first three channels (all of them when
    there are at most three) have entries in [0, 1], the preview is an
    image of shape [H, W, 3]: pixel (y, x) carries in component k the
    quantised entry (k, y, x) of the map for k below the channel count and
    0 above it.  Channels from the fourth on are neither written nor
    looked at. *)
Theorem dump_pred_to_png_layout (pred : ndarray3 Q) (png_path : string) :
  dim0 pred <> 0 -> dim1 pred <> 0 -> dim2 pred <> 0 ->
  (forall c y x, c < dim0 pred -> c < 3 -> y < dim1 pred -> x < dim2 pred ->
                 (0 <= at3 pred c y x <= 1)%Q) ->
  exists array,
    dump_pred_to_png pred png_path = Ok (png_path, array) /\
    shape3 array = (dim1 pred, dim2 pred, 3) /\
    forall y x k, y < dim1 pred -> x < dim2 pred -> k < 3 ->
      at3 array y x k
      = if k <? dim0 pred then astype_uint8 (at3 pred k y x * 255) else 0%Z.
Proof.
  intros H0 H1 H2 Hin. unfold dump_pred_to_png.
  pose proof (preview_part pred) as Hpart. cbv zeta in Hpart.
  set (part := if 3 <? dim0 pred then slice0 pred 3 else pred) in *.
  destruct Hpart as (P0 & P1 & P2 & Pat).
  destruct (@asserts_pass part) as (Hmin & Hmax).
  { unfold size3. rewrite P0, P1, P2. intros E.
    apply Nat.eq_mul_0 in E. destruct E as [E|E]; [|lia].
    apply Nat.eq_mul_0 in E. lia. }
  { intros c y x Hc Hy Hx. rewrite Pat. apply Hin; lia. }
  rewrite Hmin, Hmax. cbn [rbind].
  unfold setitem_slice2, fits.
  cbn [dim0 dim1 dim2 zeros3_uint8 transpose120 to_8bit at3].
  rewrite P0, P1, P2, !Nat.eqb_refl. cbn [orb andb].
  assert (Hn : slice_len 0 (dim0 pred) 3 = Nat.min (dim0 pred) 3)
    by (unfold slice_len; lia).
  rewrite Hn, Nat.eqb_refl. cbn [orb rbind].
  eexists. split; [reflexivity|]. split; [reflexivity|].
  intros y x k Hy Hx Hk. cbn [at3]. rewrite Pat.
  destruct (k <? Nat.min (dim0 pred) 3) eqn:E1.
  - apply Nat.ltb_lt in E1.
    rewrite (proj2 (Nat.ltb_lt k (dim0 pred))) by lia.
    rewrite !bidx_in_range by lia. reflexivity.
  - apply Nat.ltb_ge in E1.
    rewrite (proj2 (Nat.ltb_ge k (dim0 pred))) by lia. reflexivity.
Qed.

(** X2.  The preview fails before anything is saved: [ValueError] for a
    map without entries, [AssertionError] when an entry of the first
    three channels is outside [0, 1]. *)
Theorem dump_pred_to_png_errors (pred : ndarray3 Q) (png_path : string) :
  (dim0 pred = 0 \/ dim1 pred = 0 \/ dim2 pred = 0 ->
   dump_pred_to_png pred png_path = Raise ValueError) /\
  (forall c y x, c < dim0 pred -> c < 3 -> y < dim1 pred -> x < dim2 pred ->
                 ~ (0 <= at3 pred c y x <= 1)%Q ->
                 dump_pred_to_png pred png_path = Raise AssertionError).
Proof.
  unfold dump_pred_to_png.
  pose proof (preview_part pred) as Hpart. cbv zeta in Hpart.
  set (part := if 3 <? dim0 pred then slice0 pred 3 else pred) in *.
  destruct Hpart as (P0 & P1 & P2 & Pat).
  split.
  - intros Hempty. unfold assert_min_ge0.
    assert (E : size3 part = 0).
    { unfold size3. rewrite P0, P1, P2.
      destruct Hempty as [E|[E|E]]; rewrite E; lia. }
    rewrite E. reflexivity.
  - intros c y x Hc Hc3 Hy Hx Hbad.
    assert (Hsize : size3 part <> 0).
    { apply (@size3_pos _ part c y x); lia. }
    unfold assert_min_ge0, assert_max_le1.
    apply Nat.eqb_neq in Hsize. rewrite Hsize.
    destruct (all3 (fun v => Qle_bool 0 v) part) eqn:A0; [|reflexivity].
    destruct (all3 (fun v => Qle_bool v 1) part) eqn:A1; [|reflexivity].
    exfalso. apply Hbad. rewrite all3_spec in A0, A1.
    rewrite <- Pat.
    split; apply Qle_bool_iff; [apply A0|apply A1]; lia.
Qed.
